(** * Sweep: the multi-trace aligned dataset of [ta/sweep/sweep_parser.py]

    A shallow embedding of the class [Sweep] and the properties of its
    constructor, its name resolution, its axis labelling and its unit
    rescaling.

    Python's [dict] keeps insertion order and the class relies on it (the
    aliases are positional), so a dict is an association list read and written
    the way a dict is: a lookup finds the entry of a key, an assignment
    overwrites the entry in place or appends a new one.  Exceptions are values
    of [exn]; a method that may raise returns a [result].  The element type of
    the numpy arrays is left open behind the class [Scalar]. *)

From Stdlib Require Import String Ascii List Bool Arith ZArith Lia.
From Stdlib Require Decimal DecimalNat.
From Stdlib Require Import DecimalString.
Import ListNotations.
Open Scope string_scope.

(** ** Exceptions and results *)

Inductive exn : Type :=
| TypeError (msg : string)
| ValueError (msg : string)
| KeyError (msg : string)
| IndexError (msg : string)
| OverflowError (msg : string).

Definition result (A : Type) : Type := (exn + A)%type.

Definition Ok {A : Type} (a : A) : result A := inr a.
Definition Raise {A : Type} (e : exn) : result A := inl e.

Definition bind {A B : Type} (m : result A) (f : A -> result B) : result B :=
  match m with
  | inl e => inl e
  | inr a => f a
  end.

Notation "x <- m ;; k" := (bind m (fun x => k))
  (at level 61, m at next level, right associativity).

(** f-string rendering of a non-negative [int]. *)
Definition str_nat (n : nat) : string := NilEmpty.string_of_uint (Nat.to_uint n).

(** ** The fragment of [dict] the class uses *)

Module Py.
Section Dict.
Context {V : Type}.

Definition dict : Type := list (string * V).

(** [d[k]], [None] standing for the [KeyError]. *)
Fixpoint get (d : dict) (k : string) : option V :=
  match d with
  | [] => None
  | (k', v) :: rest => if String.eqb k' k then Some v else get rest k
  end.

(** [k in d] *)
Definition contains (d : dict) (k : string) : bool :=
  match get d k with Some _ => true | None => false end.

(** [d[k] = v]: an existing key keeps its position. *)
Fixpoint set (d : dict) (k : string) (v : V) : dict :=
  match d with
  | [] => [(k, v)]
  | (k', v') :: rest =>
      if String.eqb k' k then (k', v) :: rest else (k', v') :: set rest k v
  end.

(** [d.keys()] in insertion order. *)
Definition keys (d : dict) : list string := map fst d.

(** [d.update(items)], also the way [dict(items)] fills an empty dict. *)
Definition update (d : dict) (items : list (string * V)) : dict :=
  fold_left (fun acc kv => set acc (fst kv) (snd kv)) items d.

Definition of_items (items : list (string * V)) : dict := update [] items.

(** [bool(d)] *)
Definition truthy (d : dict) : bool :=
  match d with [] => false | _ :: _ => true end.
End Dict.
Arguments dict V : clear implicits.

(** [a.keys() == b.keys()]: key views compare as sets, by size and then by
    membership of every key of the left view in the right one. *)
Definition keys_eq {A B : Type} (a : dict A) (b : dict B) : bool :=
  Nat.eqb (List.length a) (List.length b) && forallb (fun k => contains b k) (keys a).

(** [enumerate(l)] *)
Definition enumerate {A : Type} (l : list A) : list (nat * A) :=
  combine (seq 0 (length l)) l.

(** [bool(s)] for [s : str | None]. *)
Definition truthy_str (s : option string) : bool :=
  match s with
  | None => false
  | Some s => negb (String.eqb s "")
  end.

(** The string of an argument that passed the truth test. *)
Definition the_str (s : option string) : string :=
  match s with
  | None => ""
  | Some s => s
  end.
End Py.

(** The keys of a dict are pairwise distinct. *)
Fixpoint distinct (l : list string) : bool :=
  match l with
  | [] => true
  | a :: rest => negb (existsb (String.eqb a) rest) && distinct rest
  end.

Fixpoint aliases_eqb (a b : Py.dict string) : bool :=
  match a, b with
  | [], [] => true
  | (k, v) :: a', (k', v') :: b' =>
      String.eqb k k' && String.eqb v v' && aliases_eqb a' b'
  | _, _ => false
  end.

(** ** Array elements *)

(** What the class asks of the elements of a numpy array: the product of an
    element with the coefficient, the exception the product of an array with
    a coefficient raises when the array cannot take the coefficient, the
    binary minimum and maximum that [np.min] and [np.max] fold over the
    array, and the text an f-string gives. *)
Class Scalar (num : Type) : Type := {
  mul : num -> num -> num;
  coeff_error : num -> option exn;
  nmin : num -> num -> num;
  nmax : num -> num -> num;
  show : num -> string
}.

(** The range of [int64]. *)
Definition in_int64 (z : Z) : bool :=
  ((- 2 ^ 63 <=? z) && (z <? 2 ^ 63))%Z.

(** The value an [int64] product wraps around to. *)
Definition wrap64 (z : Z) : Z :=
  ((z + 2 ^ 63) mod 2 ^ 64 - 2 ^ 63)%Z.

(** The text of a Python [int]. *)
Definition show_int (z : Z) : string :=
  NilEmpty.string_of_int (Z.to_int z).

(** The product of an [int64] array with a Python [int] raises for an [int]
    outside the range of [int64]. *)
Definition int64_coeff_error (c : Z) : option exn :=
  if in_int64 c then None
  else Some (OverflowError
               ("Python integer " ++ show_int c ++ " out of bounds for int64")).

(** Integer-valued traces: an [int64] array, with a Python [int] for
    coefficient.  The values of such an array are integers of the range of
    [int64], and the instance is meant for those: a coefficient outside the
    range makes the product raise, one inside it gives products that wrap
    around into the range. *)
#[export] Instance int64_scalar : Scalar Z := {
  mul := fun a b => wrap64 (a * b);
  coeff_error := int64_coeff_error;
  nmin := Z.min;
  nmax := Z.max;
  show := show_int
}.

Section Numpy.
Context {num : Type} `{Scalar num}.

Definition zero_size (op : string) : exn :=
  ValueError ("zero-size array to reduction operation " ++ op
              ++ " which has no identity").

(** [np.min(v)]: raises on an empty array. *)
Definition np_min (v : list num) : result num :=
  match v with
  | [] => Raise (zero_size "minimum")
  | a :: rest => Ok (fold_left nmin rest a)
  end.

(** [np.max(v)] *)
Definition np_max (v : list num) : result num :=
  match v with
  | [] => Raise (zero_size "maximum")
  | a :: rest => Ok (fold_left nmax rest a)
  end.

(** [v[i]] on a one-dimensional array. *)
Definition index (v : list num) (i : nat) : result num :=
  match nth_error v i with
  | Some a => Ok a
  | None =>
      Raise (IndexError ("index " ++ str_nat i
                         ++ " is out of bounds for axis 0 with size "
                         ++ str_nat (List.length v)))
  end.

(** [np.array(v)] of a flat list of numbers. *)
Definition np_array (v : list num) : list num := v.

(** The element-wise product of an array with a coefficient it takes. *)
Definition scale (coeff : num) (v : list num) : list num :=
  map (mul coeff) v.

(** [coeff * v]: raises for a coefficient the array cannot take. *)
Definition product (coeff : num) (v : list num) : result (list num) :=
  match coeff_error coeff with
  | Some e => Raise e
  | None => Ok (scale coeff v)
  end.
End Numpy.

(** ** The class *)

Section SweepClass.
Context {num : Type} `{Scalar num}.

Record Sweep : Type := mkSweep {
  _attrs : Py.dict (string * string);
  _traces : Py.dict (list num);
  _aliases : Py.dict string;
  _ranges : Py.dict (num * num);
  _len : nat
}.

(** [Sweep.get_trace_col] *)
Definition get_trace_col (self : Sweep) (col : string) : result string :=
  match Py.get (_aliases self) col with
  | Some target => Ok target
  | None =>
      if Py.contains (_traces self) col then Ok col
      else Raise (KeyError ("The trace '" ++ col ++ "' does not exist"))
  end.

(** [Sweep.__getitem__] *)
Definition getitem (self : Sweep) (item : string) : result (list num) :=
  col <- get_trace_col self item ;;
  match Py.get (_traces self) col with
  | Some v => Ok v
  | None => Raise (KeyError col)
  end.

(** [Sweep.__len__] *)
Definition len (self : Sweep) : nat := _len self.

(** The [if attrs:] block of [__init__]: the value [self._attrs] gets. *)
Definition check_attrs (traces : Py.dict (list num))
    (attrs : option (Py.dict (string * string)))
  : result (Py.dict (string * string)) :=
  match attrs with
  | Some a =>
      if Py.truthy a then
        if negb (Py.keys_eq a traces)
        then Raise (ValueError "The keys of 'traces' and 'attrs' must match.")
        else Ok a
      else Ok []
  | None => Ok []
  end.

(** The two statements of [__init__] that build [self._aliases]. *)
Definition make_aliases (t_keys : list string) : result (Py.dict string) :=
  match t_keys with
  | k0 :: k1 :: _ =>
      Ok (Py.update [("x", k0); ("y", k1)]
            (map (fun ik => ("y" ++ str_nat (fst ik), snd ik))
                 (Py.enumerate (tl t_keys))))
  | _ => Raise (IndexError "tuple index out of range")
  end.

Definition length_msg (k : string) : string :=
  "Trace '" ++ k ++ "' does not have the same length as the x-trace. "
  ++ "Every trace must have the same length.".

(** The loop of [__init__] over [self._traces.items()]: the range of a
    trace is taken before its length is compared. *)
Fixpoint init_loop (n : nat) (items : list (string * list num))
    (ranges : Py.dict (num * num)) : result (Py.dict (num * num)) :=
  match items with
  | [] => Ok ranges
  | (k, v) :: rest =>
      lo <- np_min v ;;
      hi <- np_max v ;;
      let ranges := Py.set ranges k (lo, hi) in
      if negb (Nat.eqb (List.length v) n) then Raise (ValueError (length_msg k))
      else init_loop n rest ranges
  end.

(** [Sweep.__init__].  The argument [traces] is a dict by its type, so the
    [TypeError] branch has no counterpart.  The comprehension that fills
    [self._traces] keeps the keys and their order. *)
Definition init (traces : Py.dict (list num))
    (attrs : option (Py.dict (string * string))) : result Sweep :=
  if Nat.ltb (List.length traces) 2 then
    Raise (ValueError "There must be more than 1 trace of data to make a sweep.")
  else
    a <- check_attrs traces attrs ;;
    let tr := map (fun kv => (fst kv, np_array (snd kv))) traces in
    al <- make_aliases (Py.keys tr) ;;
    x <- getitem (mkSweep a tr al [] 0) "x" ;;
    let n := List.length x in
    rg <- init_loop n tr [] ;;
    Ok (mkSweep a tr al rg n).

(** The loop of [get_axis_labels] over [self._traces.items()]: [v] is the
    array of the trace, and the label is made of its first two elements. *)
Fixpoint labels_loop (use_generic_names : bool) (keys : Py.dict string)
    (items : list (string * list num)) (labels : Py.dict string)
  : result (Py.dict string) :=
  match items with
  | [] => Ok labels
  | (k, v) :: rest =>
      k <- (if use_generic_names then
              match Py.get keys k with
              | Some alias => Ok alias
              | None => Raise (KeyError k)
              end
            else Ok k) ;;
      v0 <- index v 0 ;;
      v1 <- index v 1 ;;
      labels_loop use_generic_names keys rest
        (Py.set labels k (show v0 ++ " (" ++ show v1 ++ ")"))
  end.

(** [Sweep.get_axis_labels] *)
Definition get_axis_labels (self : Sweep) (use_generic_names : bool)
  : result (Py.dict string) :=
  let keys :=
    if use_generic_names
    then Py.of_items (map (fun kv => (snd kv, fst kv)) (_aliases self))
    else [] in
  labels_loop use_generic_names keys (_traces self) [].

(** *** Methods that mutate [self]

    A mutating method returns its outcome together with the object as the
    call leaves it, also when it raises. *)
Definition method (A : Type) : Type := Sweep -> result A * Sweep.

Definition ret {A : Type} (a : A) : method A := fun self => (Ok a, self).
Definition throw {A : Type} (e : exn) : method A := fun self => (Raise e, self).
Definition lift {A : Type} (f : Sweep -> result A) : method A :=
  fun self => (f self, self).
Definition read {A : Type} (f : Sweep -> A) : method A :=
  fun self => (Ok (f self), self).
Definition modify (f : Sweep -> Sweep) : method unit :=
  fun self => (Ok tt, f self).
Definition mbind {A B : Type} (m : method A) (k : A -> method B) : method B :=
  fun self =>
    match m self with
    | (inl e, self') => (inl e, self')
    | (inr a, self') => k a self'
    end.

Notation "x <~ m ;; k" := (mbind m (fun x => k))
  (at level 61, m at next level, right associativity).

Definition set_traces (tr : Py.dict (list num)) (self : Sweep) : Sweep :=
  mkSweep (_attrs self) tr (_aliases self) (_ranges self) (_len self).

Definition set_attrs (a : Py.dict (string * string)) (self : Sweep) : Sweep :=
  mkSweep a (_traces self) (_aliases self) (_ranges self) (_len self).

Definition lookup {V : Type} (d : Py.dict V) (k : string) : result V :=
  match Py.get d k with
  | Some v => Ok v
  | None => Raise (KeyError k)
  end.

(** [Sweep.change_unit] *)
Definition change_unit (col : string) (coeff : num)
    (unit desc : option string) : method Datatypes.unit :=
  col <~ lift (fun self => get_trace_col self col) ;;
  v <~ lift (fun self => lookup (_traces self) col) ;;
  w <~ lift (fun _ => product coeff v) ;;
  _ <~ modify (fun self => set_traces (Py.set (_traces self) col w) self) ;;
  attrs <~ read _attrs ;;
  if Py.truthy attrs then
    if negb (Py.truthy_str unit) then
      throw (ValueError
               "The argument 'unit' must be defined for a Sweep with attrs")
    else
      if Py.truthy_str desc then
        modify (fun self =>
                  set_attrs (Py.set (_attrs self) col
                               (Py.the_str desc, Py.the_str unit)) self)
      else
        old <~ lift (fun self => lookup (_attrs self) col) ;;
        modify (fun self =>
                  set_attrs (Py.set (_attrs self) col
                               (fst old, Py.the_str unit)) self)
  else ret tt.

(** *** The object invariant

    What [__init__] establishes and [change_unit] keeps: at least two
    traces under distinct names, the aliases those of the trace names, every
    trace of the cached length, and attrs either empty or keyed by the trace
    names. *)
Definition valid (self : Sweep) : bool :=
  Nat.leb 2 (List.length (_traces self))
  && distinct (Py.keys (_traces self))
  && match make_aliases (Py.keys (_traces self)) with
     | inr al => aliases_eqb al (_aliases self)
     | inl _ => false
     end
  && forallb (fun kv => Nat.eqb (List.length (snd kv)) (_len self))
       (_traces self)
  && (negb (Py.truthy (_attrs self))
      || distinct (Py.keys (_attrs self))
         && Py.keys_eq (_attrs self) (_traces self)).

End SweepClass.
Arguments Sweep num : clear implicits.

(** ** What the properties are stated with *)

(** The items [{f'y{ii}': k for ii, k in enumerate(l)}] adds to the aliases. *)
Definition y_items (l : list string) : list (string * string) :=
  map (fun ik => ("y" ++ str_nat (fst ik), snd ik)) (Py.enumerate l).

(** The key sets of two dicts are equal. *)
Definition key_parity {A B : Type} (a : Py.dict A) (b : Py.dict B) : Prop :=
  forall k, In k (Py.keys a) <-> In k (Py.keys b).

Section SweepNotions.
Context {num : Type} `{Scalar num}.

(** The common length [__init__] reads off the x-trace. *)
Definition first_length (traces : Py.dict (list num)) : nat :=
  match traces with
  | [] => 0
  | (_, v) :: _ => List.length v
  end.

Definition has_length (n : nat) (kv : string * list num) : Prop :=
  List.length (snd kv) = n.

(** The object invariant read as a proposition. *)
Record Valid (self : Sweep num) : Prop := {
  valid_two : 2 <= List.length (_traces self);
  valid_names : NoDup (Py.keys (_traces self));
  valid_aliases : make_aliases (Py.keys (_traces self)) = Ok (_aliases self);
  valid_lengths : Forall (has_length (_len self)) (_traces self);
  valid_attrs :
    _attrs self = []
    \/ NoDup (Py.keys (_attrs self)) /\ key_parity (_attrs self) (_traces self)
}.

Definition missing_unit : exn :=
  ValueError "The argument 'unit' must be defined for a Sweep with attrs".

(** The state the multiplication of [change_unit] leaves. *)
Definition scaled (self : Sweep num) (c : string) (coeff : num) (v : list num)
  : Sweep num :=
  set_traces (Py.set (_traces self) c (scale coeff v)) self.

(** The dict [get_axis_labels] inverts the aliases into. *)
Definition inverted (self : Sweep num) : Py.dict string :=
  Py.of_items (map (fun kv => (snd kv, fst kv)) (_aliases self)).

(** An alias is in the alias map and resolves to its target. *)
Definition resolves (self : Sweep num) (alias target : string) : Prop :=
  Py.get (_aliases self) alias = Some target
  /\ get_trace_col self alias = Ok target.

(** The sweeps a program can hold: those [__init__] returns, from dicts,
    and those [change_unit] leaves behind, whether it returned or raised. *)
Inductive built : Sweep num -> Prop :=
| built_init traces attrs self :
    NoDup (Py.keys traces) ->
    (forall a, attrs = Some a -> NoDup (Py.keys a)) ->
    init traces attrs = Ok self ->
    built self
| built_change_unit self col coeff unit desc :
    built self ->
    built (snd (change_unit col coeff unit desc self)).

End SweepNotions.

(** ** The read-only properties of the class *)

Section SweepProperties.
Context {num : Type}.

(** [Sweep.attrs] *)
Definition attrs (self : Sweep num) : Py.dict (string * string) :=
  _attrs self.

(** [Sweep.ranges] *)
Definition ranges (self : Sweep num) : Py.dict (num * num) := _ranges self.

(** [Sweep.x_col] *)
Definition x_col (self : Sweep num) : result string :=
  lookup (_aliases self) "x".

(** [Sweep.y_cols] *)
Definition y_cols (self : Sweep num) : list string :=
  tl (Py.keys (_traces self)).

End SweepProperties.

(** ** The object a rescaling leaves *)

Section AfterRescaling.
Context {num : Type} `{Scalar num}.

(** The attrs after [change_unit] on the trace [c]: untouched on a sweep
    without attrs and when the unit fails the truth test, and else with the
    entry of [c] replaced. *)
Definition attrs_after (a : Py.dict (string * string)) (c : string)
    (unit desc : option string) : Py.dict (string * string) :=
  if Py.truthy a && Py.truthy_str unit then
    Py.set a c
      (if Py.truthy_str desc then Py.the_str desc
       else match Py.get a c with
            | Some old => fst old
            | None => ""
            end,
       Py.the_str unit)
  else a.

(** The sweep after [change_unit] on the trace [c] of values [v]: as it was
    for a coefficient the product raises on. *)
Definition rescaled (self : Sweep num) (c : string) (coeff : num)
    (v : list num) (unit desc : option string) : Sweep num :=
  match coeff_error coeff with
  | Some _ => self
  | None =>
      mkSweep (attrs_after (_attrs self) c unit desc)
        (Py.set (_traces self) c (scale coeff v))
        (_aliases self) (_ranges self) (_len self)
  end.

End AfterRescaling.

(** * The sweeps of the examples *)

(** Integer-valued traces under the names the specification uses. *)
Definition wl_p1_p2 : Py.dict (list Z) :=
  [("wl", [1550; 1551; 1552]); ("p1", [1; 2; 3]); ("p2", [3; 1; 4])]%Z.

Definition power_attrs : Py.dict (string * string) :=
  [("wl", ("Wavelength", "nm")); ("p1", ("Power", "W"));
   ("p2", ("Power 2", "W"))].

Definition annotated : Sweep Z := {|
  _attrs := power_attrs;
  _traces := wl_p1_p2;
  _aliases := [("x", "wl"); ("y", "p1"); ("y0", "p1"); ("y1", "p2")];
  _ranges := [("wl", (1550, 1552)); ("p1", (1, 3)); ("p2", (1, 4))]%Z;
  _len := 3
|}.

Definition bare : Sweep Z := {|
  _attrs := [];
  _traces := wl_p1_p2;
  _aliases := [("x", "wl"); ("y", "p1"); ("y0", "p1"); ("y1", "p2")];
  _ranges := [("wl", (1550, 1552)); ("p1", (1, 3)); ("p2", (1, 4))]%Z;
  _len := 3
|}.

(** A sweep whose second trace is itself called [x]. *)
Definition shadowed : Sweep Z := {|
  _attrs := [];
  _traces := [("t", [0; 1]); ("x", [5; 7])]%Z;
  _aliases := [("x", "t"); ("y", "x"); ("y0", "x")];
  _ranges := [("t", (0, 1)); ("x", (5, 7))]%Z;
  _len := 2
|}.

(** A sweep of traces that hold one value each. *)
Definition single : Sweep Z := {|
  _attrs := [];
  _traces := [("t", [7]); ("u", [9])]%Z;
  _aliases := [("x", "t"); ("y", "u"); ("y0", "u")];
  _ranges := [("t", (7, 7)); ("u", (9, 9))]%Z;
  _len := 1
|}.


(** * Properties *)

(** ** Dict lemmas *)

Ltac eqb_cases k k' :=
  let E := fresh "E" in
  destruct (String.eqb_spec k k') as [E | E]; [try subst | idtac].

Section DictFacts.
Context {V : Type}.
Implicit Types (d : Py.dict V) (k : string) (v : V).

Lemma get_set_same d k v : Py.get (Py.set d k v) k = Some v.
Proof.
  induction d as [| [k' v'] d IH]; simpl.
  - now rewrite String.eqb_refl.
  - eqb_cases k' k; simpl.
    + now rewrite String.eqb_refl.
    + rewrite (proj2 (String.eqb_neq k' k) E). exact IH.
Qed.

Lemma get_set_other d k k' v :
  k <> k' -> Py.get (Py.set d k v) k' = Py.get d k'.
Proof.
  intros Hne. induction d as [| [k0 v0] d IH]; simpl.
  - now rewrite (proj2 (String.eqb_neq k k') Hne).
  - eqb_cases k0 k; simpl.
    + now rewrite (proj2 (String.eqb_neq k k') Hne).
    + now rewrite IH.
Qed.

Lemma keys_set_present d k v v0 :
  Py.get d k = Some v0 -> Py.keys (Py.set d k v) = Py.keys d.
Proof.
  induction d as [| [k' v'] d IH]; simpl; [discriminate |].
  eqb_cases k' k; simpl; [reflexivity |].
  intros Hg. f_equal. exact (IH Hg).
Qed.

Lemma length_set_present d k v v0 :
  Py.get d k = Some v0 -> List.length (Py.set d k v) = List.length d.
Proof.
  intros Hg. rewrite <- (length_map fst (Py.set d k v)), <- (length_map fst d).
  change (map fst (Py.set d k v)) with (Py.keys (Py.set d k v)).
  now rewrite (keys_set_present d k v v0 Hg).
Qed.

Lemma get_In d k v : Py.get d k = Some v -> In (k, v) d.
Proof.
  induction d as [| [k' v'] d IH]; simpl; [discriminate |].
  eqb_cases k' k.
  - intros [= ->]. now left.
  - intros Hg. right. exact (IH Hg).
Qed.

Lemma get_In_keys d k v : Py.get d k = Some v -> In k (Py.keys d).
Proof.
  intros Hg. apply get_In in Hg. unfold Py.keys.
  change k with (fst (k, v)). now apply in_map.
Qed.

Lemma In_keys_get d k : In k (Py.keys d) -> exists v, Py.get d k = Some v.
Proof.
  induction d as [| [k' v'] d IH]; simpl; [tauto |].
  intros [-> | Hin].
  - rewrite String.eqb_refl. now exists v'.
  - destruct (String.eqb k' k); [now exists v' | exact (IH Hin)].
Qed.

Lemma contains_In d k : Py.contains d k = true <-> In k (Py.keys d).
Proof.
  unfold Py.contains. split.
  - destruct (Py.get d k) eqn:Hg; [| discriminate].
    intros _. exact (get_In_keys _ _ _ Hg).
  - intros Hin. destruct (In_keys_get _ _ Hin) as [v ->]. reflexivity.
Qed.

Lemma get_None_not_In d k : Py.get d k = None <-> ~ In k (Py.keys d).
Proof.
  split.
  - intros Hg Hin. destruct (In_keys_get _ _ Hin) as [v Hv]. congruence.
  - intros Hn. destruct (Py.get d k) eqn:Hg; [| reflexivity].
    exfalso. apply Hn. exact (get_In_keys _ _ _ Hg).
Qed.

Lemma get_app d1 d2 k :
  Py.get (d1 ++ d2)%list k =
  match Py.get d1 k with Some v => Some v | None => Py.get d2 k end.
Proof.
  induction d1 as [| [k' v'] d1 IH]; simpl; [reflexivity |].
  destruct (String.eqb k' k); [reflexivity | exact IH].
Qed.

Lemma get_NoDup_In d k v :
  NoDup (Py.keys d) -> In (k, v) d -> Py.get d k = Some v.
Proof.
  induction d as [| [k' v'] d IH]; simpl; [tauto |].
  intros Hnd [Heq | Hin].
  - injection Heq as -> ->. now rewrite String.eqb_refl.
  - inversion Hnd as [| ? ? Hnotin Hnd']; subst.
    eqb_cases k' k.
    + exfalso. apply Hnotin. change k with (fst (k, v)). now apply in_map.
    + exact (IH Hnd' Hin).
Qed.

(** [update] lets the last item of a key win; with items under distinct
    keys every item is found. *)
Lemma get_update d items k :
  Py.get (Py.update d items) k =
  match Py.get (List.rev items) k with
  | Some v => Some v
  | None => Py.get d k
  end.
Proof.
  unfold Py.update. revert d.
  induction items as [| [k' v'] items IH]; intros d; simpl; [reflexivity |].
  rewrite IH, get_app. destruct (Py.get (List.rev items) k); [reflexivity |].
  simpl. eqb_cases k' k.
  - apply get_set_same.
  - now apply get_set_other.
Qed.

Lemma get_update_In d items k v :
  NoDup (Py.keys items) -> In (k, v) items ->
  Py.get (Py.update d items) k = Some v.
Proof.
  intros Hnd Hin. rewrite get_update.
  rewrite (get_NoDup_In (List.rev items) k v); [reflexivity | |].
  - unfold Py.keys. rewrite map_rev. apply NoDup_rev. exact Hnd.
  - now apply -> in_rev.
Qed.

Lemma get_update_fresh d items k :
  ~ In k (Py.keys items) -> Py.get (Py.update d items) k = Py.get d k.
Proof.
  intros Hn. rewrite get_update.
  replace (Py.get (List.rev items) k) with (@None V); [reflexivity |].
  symmetry. apply get_None_not_In. unfold Py.keys.
  rewrite map_rev. intros Hin. apply Hn. now apply in_rev.
Qed.
End DictFacts.

Lemma distinct_NoDup (l : list string) : distinct l = true <-> NoDup l.
Proof.
  induction l as [| a l IH]; simpl.
  - split; [constructor | reflexivity].
  - rewrite andb_true_iff, negb_true_iff, IH. split.
    + intros [Hex Hnd]. constructor; [| exact Hnd].
      intros Hin. assert (existsb (String.eqb a) l = true) as Hc; [| congruence].
      apply existsb_exists. exists a. split; [exact Hin | apply String.eqb_refl].
    + intros Hnd. inversion Hnd as [| ? ? Hnotin Hnd']; subst.
      split; [| exact Hnd'].
      destruct (existsb (String.eqb a) l) eqn:Hex; [| reflexivity].
      apply existsb_exists in Hex. destruct Hex as [b [Hin Hb]].
      apply String.eqb_eq in Hb. subst b. contradiction.
Qed.

Lemma aliases_eqb_eq (a b : Py.dict string) : aliases_eqb a b = true <-> a = b.
Proof.
  revert b. induction a as [| [k v] a IH]; intros [| [k' v'] b]; simpl;
    try (split; [discriminate | discriminate]); [tauto |].
  rewrite !andb_true_iff, !String.eqb_eq, IH. split.
  - intros [[-> ->] ->]. reflexivity.
  - intros [= -> -> ->]. tauto.
Qed.

(** ** The text of an index *)

Lemma str_nat_inj (a b : nat) : str_nat a = str_nat b -> a = b.
Proof.
  unfold str_nat. intros Heq.
  assert (Some (Nat.to_uint a) = Some (Nat.to_uint b)) as Hs.
  { rewrite <- (NilEmpty.usu (Nat.to_uint a)), <- (NilEmpty.usu (Nat.to_uint b)).
    now rewrite Heq. }
  injection Hs as Hu.
  rewrite <- (DecimalNat.Unsigned.of_to a), <- (DecimalNat.Unsigned.of_to b).
  now rewrite Hu.
Qed.

Lemma str_nat_nonempty (n : nat) : str_nat n <> "".
Proof.
  unfold str_nat. intros Heq.
  pose proof (NilEmpty.usu (Nat.to_uint n)) as Hu. rewrite Heq in Hu.
  simpl in Hu. injection Hu as Hu.
  pose proof (DecimalNat.Unsigned.of_to n) as Hof. rewrite <- Hu in Hof.
  simpl in Hof. subst n. discriminate Hu.
Qed.

Lemma y_name_inj (a b : nat) : "y" ++ str_nat a = "y" ++ str_nat b -> a = b.
Proof. simpl. intros [= Heq]. now apply str_nat_inj. Qed.

Lemma y_name_not_x (i : nat) : "y" ++ str_nat i <> "x".
Proof. simpl. discriminate. Qed.

Lemma y_name_not_y (i : nat) : "y" ++ str_nat i <> "y".
Proof. simpl. intros [= Heq]. exact (str_nat_nonempty i Heq). Qed.

(** ** The alias map *)

Lemma combine_seq_fst {A : Type} (l : list A) (s : nat) :
  map fst (combine (seq s (List.length l)) l) = seq s (List.length l).
Proof.
  revert s. induction l as [| a l IH]; intros s; simpl; [reflexivity |].
  now rewrite IH.
Qed.

Lemma combine_seq_In {A : Type} (l : list A) (s i : nat) (a : A) :
  nth_error l i = Some a -> In (s + i, a) (combine (seq s (List.length l)) l).
Proof.
  revert s i. induction l as [| b l IH]; intros s [| i]; simpl; try discriminate.
  - intros [= ->]. left. f_equal. lia.
  - intros Hn. right. replace (s + S i) with (S s + i) by lia. now apply IH.
Qed.

Lemma y_items_keys (l : list string) :
  Py.keys (y_items l) = map (fun i => "y" ++ str_nat i) (seq 0 (List.length l)).
Proof.
  unfold Py.keys, y_items, Py.enumerate.
  rewrite map_map. simpl.
  rewrite <- (combine_seq_fst l 0) at 2. now rewrite map_map.
Qed.

Lemma y_items_NoDup (l : list string) : NoDup (Py.keys (y_items l)).
Proof.
  rewrite y_items_keys. apply NoDup_map_NoDup_ForallPairs; [| apply seq_NoDup].
  intros a b _ _. apply y_name_inj.
Qed.

Lemma y_items_In (l : list string) (i : nat) (k : string) :
  nth_error l i = Some k -> In ("y" ++ str_nat i, k) (y_items l).
Proof.
  intros Hn. unfold y_items.
  change ("y" ++ str_nat i, k)
    with ((fun ik : nat * string => ("y" ++ str_nat (fst ik), snd ik)) (i, k)).
  apply in_map. exact (combine_seq_In l 0 i k Hn).
Qed.

Lemma y_items_values (l : list string) (a k : string) :
  In (a, k) (y_items l) -> In k l.
Proof.
  unfold y_items. intros Hin. apply in_map_iff in Hin.
  destruct Hin as [[i k'] [[= _ ->] Hin]]. exact (in_combine_r _ _ _ _ Hin).
Qed.

Lemma y_items_fresh (l : list string) (a : string) :
  (forall i, "y" ++ str_nat i <> a) -> ~ In a (Py.keys (y_items l)).
Proof.
  intros Hne. rewrite y_items_keys. intros Hin. apply in_map_iff in Hin.
  destruct Hin as [i [Heq _]]. exact (Hne i Heq).
Qed.

Lemma make_aliases_eq (k0 k1 : string) (rest : list string) :
  make_aliases (k0 :: k1 :: rest)
  = Ok (Py.update [("x", k0); ("y", k1)] (y_items (k1 :: rest))).
Proof. reflexivity. Qed.

Section Aliases.
Variables (k0 k1 : string) (rest : list string).
Local Abbreviation al :=
  (Py.update [("x", k0); ("y", k1)] (y_items (k1 :: rest))).

Lemma alias_x : Py.get al "x" = Some k0.
Proof.
  rewrite get_update_fresh; [reflexivity |].
  apply y_items_fresh. exact y_name_not_x.
Qed.

Lemma alias_y : Py.get al "y" = Some k1.
Proof.
  rewrite get_update_fresh; [reflexivity |].
  apply y_items_fresh. exact y_name_not_y.
Qed.

Lemma alias_yi (i : nat) (k : string) :
  nth_error (k1 :: rest) i = Some k -> Py.get al ("y" ++ str_nat i) = Some k.
Proof.
  intros Hn. apply get_update_In.
  - apply y_items_NoDup.
  - now apply y_items_In.
Qed.

(** Every alias points at a trace name. *)
Lemma alias_target (a k : string) :
  Py.get al a = Some k -> In k (k0 :: k1 :: rest).
Proof.
  rewrite get_update.
  destruct (Py.get (List.rev (y_items (k1 :: rest))) a) as [k' |] eqn:Hg.
  - intros [= ->]. apply get_In in Hg. apply in_rev in Hg.
    right. exact (y_items_values _ _ _ Hg).
  - cbn [Py.get]. destruct (String.eqb "x" a); [intros [= ->]; now left |].
    destruct (String.eqb "y" a); [intros [= ->]; right; now left | discriminate].
Qed.

(** Every trace name is the target of an alias. *)
Lemma alias_cover (k : string) :
  In k (k0 :: k1 :: rest) -> exists a, In (a, k) al.
Proof.
  intros [<- | Hin].
  - exists "x". apply get_In. exact alias_x.
  - apply In_nth_error in Hin. destruct Hin as [i Hi].
    exists ("y" ++ str_nat i). apply get_In. now apply alias_yi.
Qed.
End Aliases.

(** ** Construction *)

Section Construction.
Context {num : Type} `{Scalar num}.
Implicit Types (traces rest pre post items : Py.dict (list num)).
Implicit Types (self : Sweep num) (v : list num).
Implicit Types (rg : Py.dict (num * num)).

Lemma traces_array_id traces :
  map (fun kv => (fst kv, np_array (snd kv))) traces = traces.
Proof.
  induction traces as [| [k v] traces IH]; simpl; [reflexivity |].
  now rewrite IH.
Qed.

Lemma getitem_x attrs k0 v0 k1 v1 rest rg n :
  getitem
    (mkSweep attrs ((k0, v0) :: (k1, v1) :: rest)
       (Py.update [("x", k0); ("y", k1)] (y_items (k1 :: Py.keys rest))) rg n)
    "x" = Ok v0.
Proof.
  unfold getitem, get_trace_col. cbn [_aliases _traces].
  rewrite alias_x. cbn [bind Ok Py.get]. now rewrite String.eqb_refl.
Qed.

(** With two traces or more, [__init__] comes down to the attrs check and
    the loop. *)
Lemma init_unfold k0 v0 k1 v1 rest attrs :
  let traces := (k0, v0) :: (k1, v1) :: rest in
  let al := Py.update [("x", k0); ("y", k1)] (y_items (k1 :: Py.keys rest)) in
  init traces attrs =
  (a <- check_attrs traces attrs ;;
   rg <- init_loop (List.length v0) traces [] ;;
   Ok (mkSweep a traces al rg (List.length v0))).
Proof.
  intros traces al. unfold init.
  change (Nat.ltb (List.length traces) 2) with false. cbv iota.
  rewrite traces_array_id.
  destruct (check_attrs traces attrs) as [e | a]; [reflexivity |].
  cbn [bind]. subst traces. cbn [Py.keys map fst].
  rewrite make_aliases_eq. cbn [bind Ok].
  change (map fst rest) with (Py.keys rest).
  rewrite getitem_x. reflexivity.
Qed.

Lemma init_too_few traces attrs :
  List.length traces < 2 ->
  init traces attrs
  = Raise (ValueError "There must be more than 1 trace of data to make a sweep.").
Proof.
  intros Hlt. unfold init.
  now rewrite (proj2 (Nat.ltb_lt _ _) Hlt).
Qed.

(** *** The loop *)

Lemma np_min_ok (v : list num) : v <> [] -> exists lo, np_min v = Ok lo.
Proof. destruct v as [| a v]; [congruence | intros _; now eexists]. Qed.

Lemma np_max_ok (v : list num) : v <> [] -> exists hi, np_max v = Ok hi.
Proof. destruct v as [| a v]; [congruence | intros _; now eexists]. Qed.

Lemma nonempty_length (v : list num) : List.length v <> 0 -> v <> [].
Proof. destruct v; simpl; congruence. Qed.

Lemma init_loop_ok n items rg :
  n <> 0 -> Forall (has_length n) items ->
  exists rg', init_loop n items rg = Ok rg'.
Proof.
  intros Hn Hall. revert rg.
  induction Hall as [| [k v] items Hv _ IH]; intros rg; simpl.
  - now eexists.
  - unfold has_length in Hv. simpl in Hv.
    assert (v <> []) as Hne by (apply nonempty_length; lia).
    destruct (np_min_ok v Hne) as [lo ->], (np_max_ok v Hne) as [hi ->].
    cbn [bind Ok]. rewrite (proj2 (Nat.eqb_eq _ _) Hv). cbn [negb]. apply IH.
Qed.

Lemma init_loop_ok_inv n items rg rg' :
  init_loop n items rg = Ok rg' -> Forall (has_length n) items.
Proof.
  revert rg. induction items as [| [k v] items IH]; intros rg; simpl.
  - constructor.
  - destruct (np_min v) as [e | lo]; [discriminate |].
    destruct (np_max v) as [e | hi]; [discriminate |]. cbn [bind].
    destruct (Nat.eqb_spec (List.length v) n) as [Hv | Hv]; [| discriminate].
    cbn [negb]. intros Hl. constructor; [exact Hv | exact (IH _ Hl)].
Qed.

(** The first trace that is empty stops the loop in [np.min]. *)
Lemma init_loop_empty n pre k post rg :
  n <> 0 -> Forall (has_length n) pre ->
  init_loop n (pre ++ (k, []) :: post)%list rg = Raise (zero_size "minimum").
Proof.
  intros Hn Hall. revert rg.
  induction Hall as [| [k' v] pre Hv _ IH]; intros rg; simpl; [reflexivity |].
  unfold has_length in Hv. simpl in Hv.
  assert (v <> []) as Hne by (apply nonempty_length; lia).
  destruct (np_min_ok v Hne) as [lo ->], (np_max_ok v Hne) as [hi ->].
  cbn [bind Ok]. rewrite (proj2 (Nat.eqb_eq _ _) Hv). cbn [negb]. apply IH.
Qed.

(** The first trace of another length, when it is not empty, stops the loop
    in the length check, which names it. *)
Lemma init_loop_mismatch n pre k v post rg :
  n <> 0 -> Forall (has_length n) pre ->
  v <> [] -> List.length v <> n ->
  init_loop n (pre ++ (k, v) :: post)%list rg
  = Raise (ValueError (length_msg k)).
Proof.
  intros Hn Hall Hne Hv. revert rg.
  induction Hall as [| [k' v'] pre Hv' _ IH]; intros rg; simpl.
  - destruct (np_min_ok v Hne) as [lo ->], (np_max_ok v Hne) as [hi ->].
    cbn [bind Ok]. now rewrite (proj2 (Nat.eqb_neq _ _) Hv).
  - unfold has_length in Hv'. simpl in Hv'.
    assert (v' <> []) as Hne' by (apply nonempty_length; lia).
    destruct (np_min_ok v' Hne') as [lo ->], (np_max_ok v' Hne') as [hi ->].
    cbn [bind Ok]. rewrite (proj2 (Nat.eqb_eq _ _) Hv'). cbn [negb]. apply IH.
Qed.

(** Whatever stops the loop is a [ValueError]. *)
Lemma init_loop_fail n items rg :
  Exists (fun kv => ~ has_length n kv) items ->
  exists msg, init_loop n items rg = Raise (ValueError msg).
Proof.
  intros Hex. revert rg.
  induction items as [| [k v] items IH]; intros rg; [inversion Hex |].
  simpl. destruct v as [| a v]; [now eexists |].
  cbn [np_min np_max bind Ok].
  destruct (Nat.eqb_spec (List.length (a :: v)) n) as [Hv | Hv];
    cbn [negb]; [| now eexists].
  apply IH. inversion Hex as [? ? Hhd | ? ? Htl]; [| exact Htl].
  exfalso. apply Hhd. exact Hv.
Qed.

Lemma init_loop_all_empty items rg :
  items <> [] -> Forall (has_length 0) items ->
  init_loop 0 items rg = Raise (zero_size "minimum").
Proof.
  intros Hne Hall. destruct items as [| [k v] items]; [congruence |].
  inversion Hall as [| ? ? Hv _]; subst.
  unfold has_length in Hv. simpl in Hv.
  apply length_zero_iff_nil in Hv. subst v. reflexivity.
Qed.
End Construction.

(** ** Key parity *)

Lemma keys_eq_true {A B : Type} (a : Py.dict A) (b : Py.dict B) :
  Py.keys_eq a b = true
  <-> List.length a = List.length b /\ incl (Py.keys a) (Py.keys b).
Proof.
  unfold Py.keys_eq. rewrite andb_true_iff, Nat.eqb_eq, forallb_forall.
  unfold incl. split; intros [Hl Hi]; (split; [exact Hl |]);
    intros k Hk; apply contains_In; now apply Hi.
Qed.

Lemma keys_eq_parity {A B : Type} (a : Py.dict A) (b : Py.dict B) :
  NoDup (Py.keys a) -> Py.keys_eq a b = true -> key_parity a b.
Proof.
  intros Hnd Heq. apply keys_eq_true in Heq. destruct Heq as [Hl Hi].
  intros k. split; [apply Hi |].
  apply (NoDup_length_incl Hnd); [| exact Hi].
  unfold Py.keys. rewrite !length_map. lia.
Qed.

Lemma parity_keys_eq {A B : Type} (a : Py.dict A) (b : Py.dict B) :
  NoDup (Py.keys a) -> NoDup (Py.keys b) -> key_parity a b ->
  Py.keys_eq a b = true.
Proof.
  intros Ha Hb Hp. apply keys_eq_true.
  assert (incl (Py.keys a) (Py.keys b)) as Hab by (intros k; apply Hp).
  assert (incl (Py.keys b) (Py.keys a)) as Hba by (intros k; apply Hp).
  split; [| exact Hab].
  pose proof (NoDup_incl_length Ha Hab) as L1.
  pose proof (NoDup_incl_length Hb Hba) as L2.
  unfold Py.keys in L1, L2. rewrite !length_map in L1, L2. lia.
Qed.

(** ** The invariant, read as a proposition *)

Section Invariant.
Context {num : Type} `{Scalar num}.
Implicit Types (self : Sweep num) (traces : Py.dict (list num)).

Lemma valid_spec self : valid self = true <-> Valid self.
Proof.
  unfold valid. rewrite !andb_true_iff, orb_true_iff, andb_true_iff.
  rewrite Nat.leb_le, !distinct_NoDup, forallb_forall, negb_true_iff.
  split.
  - intros [[[[H2 Hn] Ha] Hl] Hat]. split; try assumption.
    + destruct (make_aliases (Py.keys (_traces self))) as [e | al];
        [discriminate |].
      apply aliases_eqb_eq in Ha. now subst al.
    + apply Forall_forall. intros kv Hin. apply Nat.eqb_eq. now apply Hl.
    + destruct Hat as [Hat | [Hd He]].
      * left. destruct (_attrs self); [reflexivity | discriminate].
      * right. split; [exact Hd | now apply keys_eq_parity].
  - intros [H2 Hn Ha Hl Hat]. repeat split; try assumption.
    + rewrite Ha. now apply aliases_eqb_eq.
    + intros kv Hin. apply Nat.eqb_eq.
      exact (proj1 (Forall_forall _ _) Hl kv Hin).
    + destruct Hat as [-> | [Hd Hp]]; [now left | right].
      split; [exact Hd | now apply parity_keys_eq].
Qed.

(** An alias of a valid sweep points at one of its traces, so a name that
    resolves names a trace. *)
Lemma resolved_trace self col c :
  Valid self -> get_trace_col self col = Ok c ->
  exists v, Py.get (_traces self) c = Some v.
Proof.
  intros [H2 _ Ha _ _]. unfold get_trace_col.
  destruct (Py.get (_aliases self) col) as [t |] eqn:Hg.
  - intros [= <-]. apply In_keys_get.
    destruct (Py.keys (_traces self)) as [| k0 [| k1 rest]] eqn:Hk;
      try discriminate Ha.
    rewrite make_aliases_eq in Ha. injection Ha as Ha. rewrite <- Ha in Hg.
    exact (alias_target _ _ _ _ _ Hg).
  - destruct (Py.contains (_traces self) col) eqn:Hc; [| discriminate].
    intros [= <-]. apply In_keys_get. now apply contains_In.
Qed.

(** What the attrs check lets through. *)
Lemma check_attrs_ok traces attrs a :
  check_attrs traces attrs = Ok a ->
  a = [] \/ (attrs = Some a /\ Py.keys_eq a traces = true).
Proof.
  unfold check_attrs. destruct attrs as [a' |]; [| intros [= <-]; now left].
  destruct (Py.truthy a'); [| intros [= <-]; now left].
  destruct (Py.keys_eq a' traces) eqn:Hk; [| discriminate].
  intros [= <-]. right. now split.
Qed.

(** [__init__] establishes the invariant. *)
Lemma init_valid traces attrs self :
  NoDup (Py.keys traces) ->
  (forall a, attrs = Some a -> NoDup (Py.keys a)) ->
  init traces attrs = Ok self -> Valid self.
Proof.
  intros Hnd Hat.
  destruct traces as [| [k0 v0] [| [k1 v1] rest]];
    try (rewrite init_too_few by (simpl; lia); discriminate).
  rewrite init_unfold.
  destruct (check_attrs _ attrs) as [e | a] eqn:Hc; [discriminate |].
  cbn [bind].
  destruct (init_loop _ _ _) as [e | rg] eqn:Hl; [discriminate |].
  cbn [bind]. intros [= <-]. split; cbn [_traces _aliases _attrs _len].
  - simpl. lia.
  - exact Hnd.
  - reflexivity.
  - exact (init_loop_ok_inv _ _ _ _ Hl).
  - destruct (check_attrs_ok _ _ _ Hc) as [-> | [Heq Hk]]; [now left |].
    right. pose proof (Hat a Heq) as Hda.
    split; [exact Hda | now apply keys_eq_parity].
Qed.
End Invariant.

(** ** Rescaling *)

Lemma set_In {V : Type} (d : Py.dict V) (k : string) (v : V) (kv : string * V) :
  In kv (Py.set d k v) -> In kv d \/ kv = (k, v).
Proof.
  induction d as [| [k' v'] d IH]; simpl.
  - intros [<- | []]. now right.
  - eqb_cases k' k; simpl.
    + intros [<- | Hin]; [now right | left; now right].
    + intros [<- | Hin]; [left; now left |].
      destruct (IH Hin) as [Hd | ->]; [left; now right | now right].
Qed.

Section Rescaling.
Context {num : Type} `{Scalar num}.
Implicit Types (self : Sweep num) (v : list num) (coeff : num).

(** [change_unit] on a name that resolves to a trace, with a coefficient the
    product takes, step by step. *)
Lemma change_unit_run self col coeff unit desc c v :
  get_trace_col self col = Ok c ->
  Py.get (_traces self) c = Some v ->
  coeff_error coeff = None ->
  change_unit col coeff unit desc self =
  let s1 := scaled self c coeff v in
  if Py.truthy (_attrs self) then
    if negb (Py.truthy_str unit) then (Raise missing_unit, s1)
    else if Py.truthy_str desc then
      (Ok tt, set_attrs (Py.set (_attrs self) c
                           (Py.the_str desc, Py.the_str unit)) s1)
    else
      match Py.get (_attrs self) c with
      | Some old =>
          (Ok tt, set_attrs (Py.set (_attrs self) c
                               (fst old, Py.the_str unit)) s1)
      | None => (Raise (KeyError c), s1)
      end
  else (Ok tt, s1).
Proof.
  intros Hr Hg Hc.
  unfold change_unit, mbind, lift, modify, read, ret, throw, lookup, product.
  rewrite Hr. cbn [Ok]. rewrite Hg. cbn [Ok]. rewrite Hc. cbn [Ok].
  unfold scaled, set_traces, set_attrs.
  cbn [_attrs _traces _aliases _ranges _len].
  destruct (Py.truthy (_attrs self)); [| reflexivity].
  destruct (negb (Py.truthy_str unit)); [reflexivity |].
  destruct (Py.truthy_str desc); [reflexivity |].
  cbn [_attrs]. destruct (Py.get (_attrs self) c); reflexivity.
Qed.

(** A name that does not resolve leaves the object alone. *)
Lemma change_unit_unresolved self col coeff unit desc e :
  get_trace_col self col = Raise e ->
  change_unit col coeff unit desc self = (Raise e, self).
Proof.
  intros Hr. unfold change_unit, mbind, lift. now rewrite Hr.
Qed.

(** A coefficient the product raises on leaves the object alone too: the
    product comes before the assignment. *)
Lemma change_unit_rejected self col coeff unit desc c v e :
  get_trace_col self col = Ok c ->
  Py.get (_traces self) c = Some v ->
  coeff_error coeff = Some e ->
  change_unit col coeff unit desc self = (Raise e, self).
Proof.
  intros Hr Hg Hc. unfold change_unit, mbind, lift, lookup, product.
  rewrite Hr. cbn [Ok]. rewrite Hg. cbn [Ok]. now rewrite Hc.
Qed.

Lemma Valid_set_traces self c v v' :
  Valid self -> Py.get (_traces self) c = Some v ->
  List.length v' = List.length v ->
  Valid (set_traces (Py.set (_traces self) c v') self).
Proof.
  intros [H2 Hn Ha Hl Hat] Hg Hlen.
  split; cbn [set_traces _traces _aliases _attrs _len].
  - now rewrite (length_set_present _ _ _ _ Hg).
  - now rewrite (keys_set_present _ _ _ _ Hg).
  - now rewrite (keys_set_present _ _ _ _ Hg).
  - apply Forall_forall. intros kv Hin.
    destruct (set_In _ _ _ _ Hin) as [Hold | ->].
    + exact (proj1 (Forall_forall _ _) Hl kv Hold).
    + unfold has_length. cbn [snd]. rewrite Hlen.
      exact (proj1 (Forall_forall _ _) Hl (c, v) (get_In _ _ _ Hg)).
  - destruct Hat as [-> | [Hd Hp]]; [now left | right].
    split; [exact Hd |]. unfold key_parity.
    now rewrite (keys_set_present _ _ _ _ Hg).
Qed.

Lemma Valid_set_attrs self c old new :
  Valid self -> Py.get (_attrs self) c = Some old ->
  Valid (set_attrs (Py.set (_attrs self) c new) self).
Proof.
  intros [H2 Hn Ha Hl Hat] Hg.
  split; cbn [set_attrs _traces _aliases _attrs _len]; try assumption.
  right. destruct Hat as [He | [Hd Hp]]; [rewrite He in Hg; discriminate |].
  unfold key_parity. rewrite (keys_set_present _ _ _ _ Hg). now split.
Qed.

(** On a sweep with attrs every trace has its attrs entry. *)
Lemma attrs_entry self c v :
  Valid self -> Py.truthy (_attrs self) = true ->
  Py.get (_traces self) c = Some v ->
  exists old, Py.get (_attrs self) c = Some old.
Proof.
  intros [_ _ _ _ Hat] Ht Hg.
  destruct Hat as [He | [_ Hp]]; [rewrite He in Ht; discriminate |].
  apply In_keys_get. apply Hp. exact (get_In_keys _ _ _ Hg).
Qed.

(** [change_unit] keeps the invariant, whether it returns or raises. *)
Lemma change_unit_valid self col coeff unit desc :
  Valid self -> Valid (snd (change_unit col coeff unit desc self)).
Proof.
  intros Hv. destruct (get_trace_col self col) as [e | c] eqn:Hr.
  - now rewrite (change_unit_unresolved _ _ _ _ _ _ Hr).
  - destruct (resolved_trace _ _ _ Hv Hr) as [v Hg].
    destruct (coeff_error coeff) as [e |] eqn:Hc;
      [now rewrite (change_unit_rejected _ _ _ _ _ _ _ _ Hr Hg Hc) |].
    rewrite (change_unit_run _ _ _ _ _ _ _ Hr Hg Hc). cbv zeta.
    assert (Valid (scaled self c coeff v)) as Hv1.
    { apply (Valid_set_traces self c v); [exact Hv | exact Hg |].
      apply length_map. }
    destruct (Py.truthy (_attrs self)) eqn:Ht; [| exact Hv1].
    destruct (attrs_entry _ _ _ Hv Ht Hg) as [old Hold].
    destruct (negb (Py.truthy_str unit)); [exact Hv1 |].
    rewrite Hold.
    destruct (Py.truthy_str desc); cbn [snd];
      apply (Valid_set_attrs (scaled self c coeff v) c old); assumption.
Qed.
End Rescaling.

(** ** Axis labels *)

Lemma update_In_keys {V : Type} (d : Py.dict V) (items : list (string * V))
    (k : string) :
  In k (Py.keys items) -> exists v, Py.get (Py.update d items) k = Some v.
Proof.
  intros Hin. rewrite get_update.
  assert (In k (Py.keys (List.rev items))) as Hr.
  { unfold Py.keys. rewrite map_rev. now apply -> in_rev. }
  destruct (In_keys_get _ _ Hr) as [v ->]. now exists v.
Qed.

Section Labels.
Context {num : Type} `{Scalar num}.
Implicit Types (self : Sweep num) (items : Py.dict (list num)).

Lemma inverted_total self k :
  Valid self -> In k (Py.keys (_traces self)) ->
  exists a, Py.get (inverted self) k = Some a.
Proof.
  intros [_ _ Ha _ _] Hin. unfold inverted, Py.of_items.
  apply update_In_keys.
  destruct (Py.keys (_traces self)) as [| k0 [| k1 rest]];
    try discriminate Ha.
  rewrite make_aliases_eq in Ha.
  assert (Py.update [("x", k0); ("y", k1)] (y_items (k1 :: rest))
          = _aliases self) as Heq by (unfold Ok in Ha; congruence).
  destruct (alias_cover k0 k1 rest k Hin) as [a Hal]. rewrite Heq in Hal.
  unfold Py.keys. rewrite map_map. cbn [fst].
  change k with (snd (a, k)). now apply in_map.
Qed.

Lemma index_ok (v : list num) (i : nat) :
  i < List.length v -> exists a, index v i = Ok a.
Proof.
  intros Hi. unfold index.
  destruct (nth_error v i) as [a |] eqn:Hn; [now exists a |].
  apply nth_error_None in Hn. lia.
Qed.

Lemma labels_loop_ok g keys items labels :
  Forall (fun kv => 2 <= List.length (snd kv)) items ->
  (g = true ->
   forall k, In k (Py.keys items) -> exists a, Py.get keys k = Some a) ->
  exists out, labels_loop g keys items labels = Ok out.
Proof.
  intros Hall. revert labels.
  induction Hall as [| [k v] items Hv _ IH]; intros labels Hk; simpl.
  - now eexists.
  - cbn [snd] in Hv.
    destruct (index_ok v 0) as [a0 ->]; [lia |].
    destruct (index_ok v 1) as [a1 ->]; [lia |].
    destruct g.
    + destruct (Hk eq_refl k) as [a ->]; [now left |]. cbn [bind Ok].
      apply IH. intros _ k' Hin. apply (Hk eq_refl). now right.
    + cbn [bind Ok]. apply IH. discriminate.
Qed.

(** The labels are made without reading attrs. *)
Lemma get_axis_labels_ignores_attrs self a g :
  get_axis_labels (set_attrs a self) g = get_axis_labels self g.
Proof. reflexivity. Qed.
End Labels.

Example annotated_built : init wl_p1_p2 (Some power_attrs) = Ok annotated.
Proof. reflexivity. Qed.

Example bare_built : init wl_p1_p2 None = Ok bare.
Proof. reflexivity. Qed.

Example shadowed_built :
  init [("t", [0; 1]); ("x", [5; 7])]%Z None = Ok shadowed.
Proof. reflexivity. Qed.

(** * Name resolution *)

(** C7.  Name resolution looks at the aliases first: a known alias gives its
    target trace name, whatever the traces are called; a name that is no
    alias but a trace name is returned unchanged; any other name raises the
    lookup error that names it, from [get_trace_col] and so from item
    access. *)
Theorem get_trace_col_resolution {num : Type} (self : Sweep num) (col : string) :
  (forall target,
      Py.get (_aliases self) col = Some target ->
      get_trace_col self col = Ok target)
  /\ (~ In col (Py.keys (_aliases self)) ->
      In col (Py.keys (_traces self)) ->
      get_trace_col self col = Ok col)
  /\ (~ In col (Py.keys (_aliases self)) ->
      ~ In col (Py.keys (_traces self)) ->
      get_trace_col self col
      = Raise (KeyError ("The trace '" ++ col ++ "' does not exist"))
      /\ getitem self col
         = Raise (KeyError ("The trace '" ++ col ++ "' does not exist"))).
Proof.
  unfold getitem, get_trace_col. split; [| split].
  - intros target ->. reflexivity.
  - intros Ha Ht. apply get_None_not_In in Ha. rewrite Ha.
    now rewrite (proj2 (contains_In _ _) Ht).
  - intros Ha Ht. apply get_None_not_In in Ha. rewrite Ha.
    destruct (Py.contains (_traces self) col) eqn:Hc.
    + apply contains_In in Hc. contradiction.
    + split; reflexivity.
Qed.

Lemma not_in_keys {V : Type} (d : Py.dict V) (k : string) :
  Py.get d k = None -> ~ In k (Py.keys d).
Proof. apply get_None_not_In. Qed.

Lemma get_trace_col_resolution_witness :
  get_trace_col shadowed "x" = Ok "t"
  /\ get_trace_col annotated "p2" = Ok "p2"
  /\ get_trace_col annotated "nonexistent"
     = Raise (KeyError "The trace 'nonexistent' does not exist").
Proof.
  split; [| split].
  - apply (proj1 (get_trace_col_resolution shadowed "x")). reflexivity.
  - apply (proj1 (proj2 (get_trace_col_resolution annotated "p2"))).
    + apply not_in_keys. reflexivity.
    + apply get_In_keys with (v := [3; 1; 4]%Z). reflexivity.
  - apply (proj2 (proj2 (get_trace_col_resolution annotated "nonexistent"))).
    + apply not_in_keys. reflexivity.
    + apply not_in_keys. reflexivity.
Defined.

(** * The alias map *)

(** C8.  In a sweep built from an ordered traces mapping, [x] is an alias of
    the first trace name, [y] and [y0] of the second, and [y{i}] of the trace
    name at position [i + 1], for every [i] over the traces after the
    first. *)
Theorem aliases_positional {num : Type} `{Scalar num}
    (traces : Py.dict (list num)) (attrs : option (Py.dict (string * string)))
    (self : Sweep num) :
  init traces attrs = Ok self ->
  exists k0 k1 rest,
    Py.keys traces = k0 :: k1 :: rest
    /\ resolves self "x" k0
    /\ resolves self "y" k1
    /\ resolves self "y0" k1
    /\ forall i k,
         nth_error (Py.keys traces) (S i) = Some k ->
         resolves self ("y" ++ str_nat i) k.
Proof.
  destruct traces as [| [k0 v0] [| [k1 v1] rest]];
    try (rewrite init_too_few by (simpl; lia); discriminate).
  rewrite init_unfold.
  destruct (check_attrs _ attrs) as [e | a]; [discriminate |]. cbn [bind].
  destruct (init_loop _ _ _) as [e | rg]; [discriminate |]. cbn [bind].
  intros [= <-]. exists k0, k1, (Py.keys rest).
  assert (forall (s : Sweep num) al t,
             Py.get (_aliases s) al = Some t -> resolves s al t) as Hres.
  { intros s al t Hg. split; [exact Hg |].
    unfold get_trace_col. now rewrite Hg. }
  split; [reflexivity |].
  split; [apply Hres, alias_x |].
  split; [apply Hres, alias_y |].
  split.
  - apply Hres. cbn [_aliases]. apply (alias_yi k0 k1 (Py.keys rest) 0). reflexivity.
  - intros i k Hn. apply Hres. cbn [_aliases].
    apply (alias_yi k0 k1 (Py.keys rest) i). exact Hn.
Qed.

Lemma aliases_positional_witness :
  init wl_p1_p2 None = Ok bare
  /\ exists k0 k1 rest,
       Py.keys wl_p1_p2 = k0 :: k1 :: rest
       /\ resolves bare "x" k0
       /\ resolves bare "y" k1
       /\ resolves bare "y0" k1
       /\ forall i k,
            nth_error (Py.keys wl_p1_p2) (S i) = Some k ->
            resolves bare ("y" ++ str_nat i) k.
Proof.
  split; [reflexivity |].
  apply (aliases_positional wl_p1_p2 None bare). reflexivity.
Defined.

(** The resolutions the specification lists for the traces [wl], [p1], [p2]. *)
Example aliases_wl_p1_p2 :
  get_trace_col bare "x" = Ok "wl"
  /\ get_trace_col bare "y" = Ok "p1"
  /\ get_trace_col bare "y0" = Ok "p1"
  /\ get_trace_col bare "y1" = Ok "p2".
Proof. repeat split. Qed.

(** * Unit rescaling *)

Section RescalingClaims.
Context {num : Type} `{Scalar num}.
Implicit Types (self : Sweep num) (v : list num) (coeff : num).

(** On a sweep with attrs, a call whose coefficient the product takes and
    whose [unit] fails the truth test raises the missing-unit error, and
    leaves the object with the trace already multiplied. *)
Lemma change_unit_unit_missing self col c coeff unit desc :
  valid self = true -> Py.truthy (_attrs self) = true ->
  get_trace_col self col = Ok c -> coeff_error coeff = None ->
  Py.truthy_str unit = false ->
  exists v,
    Py.get (_traces self) c = Some v
    /\ change_unit col coeff unit desc self
       = (Raise missing_unit, scaled self c coeff v).
Proof.
  intros Hv Ht Hr Hc Hu. apply valid_spec in Hv.
  destruct (resolved_trace _ _ _ Hv Hr) as [v Hg]. exists v.
  split; [exact Hg |].
  rewrite (change_unit_run _ _ _ _ _ _ _ Hr Hg Hc). cbv zeta.
  now rewrite Ht, Hu.
Qed.

(** On a valid sweep and a name that resolves, a coefficient the product
    raises on stops the call with that exception, whatever the unit, and
    leaves the object as it was. *)
Lemma change_unit_coeff_rejected self col c coeff unit desc e :
  valid self = true -> get_trace_col self col = Ok c ->
  coeff_error coeff = Some e ->
  change_unit col coeff unit desc self = (Raise e, self).
Proof.
  intros Hv Hr Hc. apply valid_spec in Hv.
  destruct (resolved_trace _ _ _ Hv Hr) as [v Hg].
  exact (change_unit_rejected _ _ _ _ _ _ _ _ Hr Hg Hc).
Qed.

(** A call succeeds exactly when the name resolves, the product takes the
    coefficient and, on a sweep with attrs, [unit] passes the truth test. *)
Lemma change_unit_succeeds self col c coeff unit desc :
  valid self = true -> get_trace_col self col = Ok c ->
  (fst (change_unit col coeff unit desc self) = Ok tt
   <-> coeff_error coeff = None
       /\ (Py.truthy (_attrs self) = false \/ Py.truthy_str unit = true)).
Proof.
  intros Hv Hr. apply valid_spec in Hv.
  destruct (resolved_trace _ _ _ Hv Hr) as [v Hg].
  destruct (coeff_error coeff) as [e |] eqn:Hc.
  { rewrite (change_unit_rejected _ _ _ _ _ _ _ _ Hr Hg Hc). cbn [fst].
    split; [discriminate | intros [Hf _]; discriminate]. }
  rewrite (change_unit_run _ _ _ _ _ _ _ Hr Hg Hc). cbv zeta.
  destruct (Py.truthy (_attrs self)) eqn:Ht; [| cbn [fst]; tauto].
  destruct (attrs_entry _ _ _ Hv Ht Hg) as [old ->].
  destruct (Py.truthy_str unit); cbn [negb].
  - destruct (Py.truthy_str desc); cbn [fst]; tauto.
  - cbn [fst]. split; [discriminate | intros [_ [Hf | Hf]]; discriminate].
Qed.

(** With a coefficient the product takes, a call without unit on a sweep
    with attrs raises the missing-unit error. *)
Lemma change_unit_unit_required self col c coeff desc :
  valid self = true -> Py.truthy (_attrs self) = true ->
  get_trace_col self col = Ok c -> coeff_error coeff = None ->
  fst (change_unit col coeff None desc self) = Raise missing_unit.
Proof.
  intros Hv Ht Hr Hc.
  destruct (change_unit_unit_missing self col c coeff None desc
              Hv Ht Hr Hc eq_refl) as [v [_ ->]].
  reflexivity.
Qed.

(** A unit given as the empty string is the call without a unit, for any
    coefficient: the same outcome and the same object left behind. *)
Lemma change_unit_empty_unit_is_none self col coeff desc :
  change_unit col coeff (Some "") desc self
  = change_unit col coeff None desc self.
Proof. reflexivity. Qed.
End RescalingClaims.

(** C9, at the call [change_unit("p1", 2**63)] on the sweep with attrs: the
    product raises the [OverflowError] of a coefficient outside [int64]
    before the unit is looked at, so the call without unit does not raise
    the missing-unit error; the sweep is as it was. *)
Theorem change_unit_overflow_without_unit :
  valid annotated = true
  /\ Py.truthy (_attrs annotated) = true
  /\ get_trace_col annotated "p1" = Ok "p1"
  /\ change_unit "p1" (2 ^ 63)%Z None None annotated
     = (Raise (OverflowError
                 "Python integer 9223372036854775808 out of bounds for int64"),
        annotated)
  /\ fst (change_unit "p1" (2 ^ 63)%Z None None annotated)
     <> Raise (ValueError
                 "The argument 'unit' must be defined for a Sweep with attrs").
Proof. repeat split. discriminate. Qed.

(** C10, at the call [change_unit("p1", 2**63, unit="")] on the sweep with
    attrs: the empty unit is treated as the omitted one, but the call raises
    the [OverflowError] of the product, which comes before the unit check,
    and not the missing-unit error. *)
Theorem change_unit_overflow_empty_unit :
  valid annotated = true
  /\ Py.truthy (_attrs annotated) = true
  /\ get_trace_col annotated "p1" = Ok "p1"
  /\ change_unit "p1" (2 ^ 63)%Z (Some "") None annotated
     = change_unit "p1" (2 ^ 63)%Z None None annotated
  /\ change_unit "p1" (2 ^ 63)%Z (Some "") None annotated
     = (Raise (OverflowError
                 "Python integer 9223372036854775808 out of bounds for int64"),
        annotated)
  /\ fst (change_unit "p1" (2 ^ 63)%Z (Some "") None annotated)
     <> Raise (ValueError
                 "The argument 'unit' must be defined for a Sweep with attrs").
Proof. repeat split. discriminate. Qed.

(** With coefficients inside [int64] the calls without unit and with the
    empty unit raise the missing-unit error. *)
Example change_unit_unit_required_int64 :
  fst (change_unit "y" 1000%Z None (Some "Optical Power") annotated)
  = Raise missing_unit
  /\ fst (change_unit "p2" 2%Z (Some "") None annotated) = Raise missing_unit
  /\ _attrs (snd (change_unit "p2" 2%Z (Some "") None annotated))
     = _attrs annotated.
Proof. repeat split. Qed.

(** C2, at the call [change_unit("p1", 2)] on the sweep with attrs: the call
    raises the missing-unit error, and the trace [p1], which held 1, 2, 3
    before the call, holds 2, 4, 6 after it: the multiplication came before
    the check. *)
Theorem change_unit_failed_call_scales :
  fst (change_unit "p1" 2%Z None None annotated) = Raise missing_unit
  /\ getitem annotated "p1" = Ok [1; 2; 3]%Z
  /\ getitem (snd (change_unit "p1" 2%Z None None annotated)) "p1"
     = Ok [2; 4; 6]%Z.
Proof. repeat split. Qed.

Section RescalingEffect.
Context {num : Type} `{Scalar num}.
Implicit Types (self : Sweep num) (v : list num) (coeff : num).

(** The object a call that returns leaves behind. *)
Lemma change_unit_ok_state self col c coeff unit desc self' v :
  Valid self -> get_trace_col self col = Ok c ->
  Py.get (_traces self) c = Some v ->
  change_unit col coeff unit desc self = (Ok tt, self') ->
  _traces self' = Py.set (_traces self) c (scale coeff v)
  /\ _aliases self' = _aliases self
  /\ _ranges self' = _ranges self
  /\ _len self' = _len self
  /\ (Py.truthy (_attrs self) = false /\ _attrs self' = _attrs self
      \/ Py.truthy (_attrs self) = true /\ Py.truthy_str unit = true
         /\ exists old,
              Py.get (_attrs self) c = Some old
              /\ _attrs self'
                 = Py.set (_attrs self) c
                     (if Py.truthy_str desc then Py.the_str desc else fst old,
                      Py.the_str unit)).
Proof.
  intros Hv Hr Hg.
  destruct (coeff_error coeff) as [e |] eqn:Hc;
    [rewrite (change_unit_rejected _ _ _ _ _ _ _ _ Hr Hg Hc); discriminate |].
  rewrite (change_unit_run _ _ _ _ _ _ _ Hr Hg Hc). cbv zeta.
  destruct (Py.truthy (_attrs self)) eqn:Ht.
  - destruct (attrs_entry _ _ _ Hv Ht Hg) as [old Hold]. rewrite Hold.
    destruct (Py.truthy_str unit); cbn [negb]; [| discriminate].
    destruct (Py.truthy_str desc); intros [= <-];
      (repeat split; right; repeat split; now exists old).
  - intros [= <-]. repeat split. now left.
Qed.
End RescalingEffect.

(** C6, amended.  A call of [change_unit] with a unit that returns, on a name
    that resolves to the trace [c], leaves under [c] the previous values each
    multiplied by the coefficient, as many as before; the other traces, the
    trace names and the length of the sweep are as they were; and on a sweep
    with attrs the entry of [c] becomes (description, unit) for a description
    that is given and not empty, and (previous description, unit) for one
    that is omitted or empty. *)
Theorem change_unit_effect {num : Type} `{Scalar num}
    (self : Sweep num) (col c : string) (coeff : num) (u : string)
    (desc : option string) (self' : Sweep num) :
  valid self = true ->
  get_trace_col self col = Ok c ->
  change_unit col coeff (Some u) desc self = (Ok tt, self') ->
  exists v,
    Py.get (_traces self) c = Some v
    /\ Py.get (_traces self') c = Some (map (mul coeff) v)
    /\ List.length (map (mul coeff) v) = List.length v
    /\ (forall k, k <> c -> Py.get (_traces self') k = Py.get (_traces self) k)
    /\ Py.keys (_traces self') = Py.keys (_traces self)
    /\ len self' = len self
    /\ (Py.truthy (_attrs self) = true ->
        exists d0 u0,
          Py.get (_attrs self) c = Some (d0, u0)
          /\ (forall d, desc = Some d -> d <> "" ->
              Py.get (_attrs self') c = Some (d, u))
          /\ (desc = None \/ desc = Some "" ->
              Py.get (_attrs self') c = Some (d0, u))).
Proof.
  intros Hv Hr Hrun. apply valid_spec in Hv.
  destruct (resolved_trace _ _ _ Hv Hr) as [v Hg]. exists v.
  destruct (change_unit_ok_state _ _ _ _ _ _ _ _ Hv Hr Hg Hrun)
    as (Htr & _ & _ & Hlen & Hat).
  split; [exact Hg |]. rewrite Htr.
  split; [apply get_set_same |].
  split; [apply length_map |].
  split; [intros k Hk; apply get_set_other; congruence |].
  split; [exact (keys_set_present _ _ _ _ Hg) |].
  split; [exact Hlen |].
  intros Ht. destruct Hat as [[Hf _] | (_ & _ & [d0 u0] & Hold & Hnew)];
    [congruence |].
  exists d0, u0. split; [exact Hold |]. rewrite Hnew. cbn [Py.the_str fst].
  split.
  - intros d -> Hd. cbn [Py.truthy_str Py.the_str].
    rewrite (proj2 (String.eqb_neq d "") Hd). cbn [negb]. apply get_set_same.
  - intros [-> | ->]; cbn [Py.truthy_str String.eqb negb]; apply get_set_same.
Qed.

Lemma change_unit_effect_witness :
  valid annotated = true
  /\ get_trace_col annotated "y" = Ok "p1"
  /\ change_unit "y" 2%Z (Some "mW") (Some "Optical Power") annotated
     = (Ok tt,
        set_attrs (Py.set power_attrs "p1" ("Optical Power", "mW"))
          (set_traces (Py.set wl_p1_p2 "p1" [2; 4; 6]%Z) annotated))
  /\ exists v,
       Py.get (_traces annotated) "p1" = Some v
       /\ Py.get (Py.set wl_p1_p2 "p1" [2; 4; 6]%Z) "p1" = Some (map (mul 2%Z) v).
Proof.
  assert (change_unit "y" 2%Z (Some "mW") (Some "Optical Power") annotated
          = (Ok tt,
             set_attrs (Py.set power_attrs "p1" ("Optical Power", "mW"))
               (set_traces (Py.set wl_p1_p2 "p1" [2; 4; 6]%Z) annotated)))
    as Hrun by reflexivity.
  split; [reflexivity |]. split; [reflexivity |]. split; [exact Hrun |].
  destruct (change_unit_effect annotated "y" "p1" 2%Z "mW"
              (Some "Optical Power") _ eq_refl eq_refl Hrun)
    as [v [Hg [Hs _]]].
  exists v. split; [exact Hg | exact Hs].
Defined.

(** C6 as stated fails for a description given as the empty string: the call
    returns and the entry keeps the previous description. *)
Lemma change_unit_empty_description :
  fst (change_unit "p1" 1000%Z (Some "mW") (Some "") annotated) = Ok tt
  /\ Py.get (_attrs (snd (change_unit "p1" 1000%Z (Some "mW") (Some "")
                            annotated))) "p1"
     = Some ("Power", "mW")
  /\ Py.get (_attrs (snd (change_unit "p1" 1000%Z (Some "mW") (Some "")
                            annotated))) "p1"
     <> Some ("", "mW").
Proof. repeat split. discriminate. Qed.

(** The rescalings the specification lists. *)
Example rescale_numeric :
  getitem (snd (change_unit "p1" 2%Z (Some "mW") None annotated)) "p1"
  = Ok [2; 4; 6]%Z.
Proof. reflexivity. Qed.

Example rescale_metadata :
  Py.get (_attrs (snd (change_unit "p1" 1000%Z (Some "mW") None annotated)))
    "p1" = Some ("Power", "mW")
  /\ Py.get (_attrs (snd (change_unit "p1" 1000%Z (Some "mW")
                            (Some "Optical Power") annotated))) "p1"
     = Some ("Optical Power", "mW").
Proof. split; reflexivity. Qed.

(** * Axis labels *)

(** C1, at the sweep with attrs: [get_axis_labels] makes each label of the
    first two values of the trace and not of its attrs entry, under the trace
    names and under the alias names alike; the labels of description and unit
    are not what it returns. *)
Theorem get_axis_labels_of_values :
  get_axis_labels annotated false
  = Ok [("wl", "1550 (1551)"); ("p1", "1 (2)"); ("p2", "3 (1)")]
  /\ get_axis_labels annotated true
     = Ok [("x", "1550 (1551)"); ("y0", "1 (2)"); ("y1", "3 (1)")]
  /\ get_axis_labels annotated false
     <> Ok [("wl", "Wavelength (nm)"); ("p1", "Power (W)");
            ("p2", "Power 2 (W)")].
Proof. repeat split. discriminate. Qed.

(** C3, at the sweep built without attrs: [get_axis_labels] does not fail;
    it returns the labels it makes of the first two values of each trace,
    as it does on a sweep with attrs. *)
Theorem get_axis_labels_without_attrs :
  init wl_p1_p2 None = Ok bare
  /\ _attrs bare = []
  /\ get_axis_labels bare false
     = Ok [("wl", "1550 (1551)"); ("p1", "1 (2)"); ("p2", "3 (1)")].
Proof. repeat split. Qed.

(** * Construction *)

(** C4, amended.  With two traces or more and attrs that pass their check:
    a trace of another length than the first makes construction fail with a
    [ValueError], which names the first such trace when that trace and the
    first one are not empty; traces of one length that is not zero make
    construction succeed, with that length as the length of the sweep; traces
    that are all empty make it fail with the [ValueError] of [np.min]. *)
Theorem init_length_uniformity {num : Type} `{Scalar num}
    (traces : Py.dict (list num)) (attrs : option (Py.dict (string * string)))
    (a : Py.dict (string * string)) :
  2 <= List.length traces ->
  check_attrs traces attrs = Ok a ->
  (Exists (fun kv => ~ has_length (first_length traces) kv) traces ->
   exists msg, init traces attrs = Raise (ValueError msg))
  /\ (forall pre k v post,
         traces = (pre ++ (k, v) :: post)%list ->
         Forall (has_length (first_length traces)) pre ->
         List.length v <> first_length traces ->
         first_length traces <> 0 -> v <> [] ->
         init traces attrs
         = Raise (ValueError
                    ("Trace '" ++ k
                     ++ "' does not have the same length as the x-trace. "
                     ++ "Every trace must have the same length.")))
  /\ (Forall (has_length (first_length traces)) traces ->
      first_length traces <> 0 ->
      exists self,
        init traces attrs = Ok self /\ len self = first_length traces
        /\ _traces self = traces)
  /\ (Forall (has_length 0) traces ->
      init traces attrs
      = Raise (ValueError
                 "zero-size array to reduction operation minimum which has no identity")).
Proof.
  intros H2 Hc.
  destruct traces as [| [k0 v0] [| [k1 v1] rest]]; try (simpl in H2; lia).
  rewrite init_unfold. rewrite Hc. cbn [bind first_length].
  split; [| split; [| split]].
  - intros Hex.
    destruct (init_loop_fail (List.length v0) _ [] Hex) as [msg ->].
    now exists msg.
  - intros pre k v post -> Hpre Hv Hn Hne.
    now rewrite (init_loop_mismatch _ pre k v post [] Hn Hpre Hne Hv).
  - intros Hall Hn.
    destruct (init_loop_ok (List.length v0) _ [] Hn Hall) as [rg ->].
    cbn [bind]. eexists. split; [reflexivity |]. split; reflexivity.
  - intros Hall. pose proof (Forall_inv Hall) as Hv0.
    unfold has_length in Hv0. cbn [snd] in Hv0. rewrite Hv0.
    rewrite init_loop_all_empty; [reflexivity | discriminate | exact Hall].
Qed.

Lemma init_length_uniformity_witness :
  2 <= List.length wl_p1_p2
  /\ check_attrs wl_p1_p2 (Some power_attrs) = Ok power_attrs
  /\ exists self,
       init wl_p1_p2 (Some power_attrs) = Ok self /\ len self = 3.
Proof.
  split; [simpl; lia |]. split; [reflexivity |].
  destruct (init_length_uniformity wl_p1_p2 (Some power_attrs) power_attrs)
    as (_ & _ & Hok & _); [simpl; lia | reflexivity |].
  destruct Hok as [self [Hi [Hl _]]].
  - repeat constructor.
  - simpl. discriminate.
  - exists self. split; [exact Hi | exact Hl].
Defined.

(** The length check at work on traces that are not empty. *)
Example init_names_the_trace :
  init [("a", [1; 2]); ("b", [1; 2; 3]); ("c", [1])]%Z None
  = Raise (ValueError
             "Trace 'b' does not have the same length as the x-trace. Every trace must have the same length.").
Proof. reflexivity. Qed.

(** C4 as stated fails on empty traces: traces that are all empty do not make
    a sweep, and an empty trace after a longer one fails in [np.min], with an
    error that does not name it. *)
Lemma init_empty_traces_fail :
  Forall (has_length 0) [("a", @nil Z); ("b", [])]
  /\ init [("a", @nil Z); ("b", [])] None
     = Raise (ValueError
                "zero-size array to reduction operation minimum which has no identity")
  /\ init [("a", [1]%Z); ("b", [])] None
     = Raise (ValueError
                "zero-size array to reduction operation minimum which has no identity").
Proof. split; [repeat constructor | split; reflexivity]. Qed.

(** C5, amended.  With two traces or more, attrs that are supplied, not
    empty, and keyed by another set of names than the traces make
    construction fail with the metadata-mismatch [ValueError]; attrs supplied
    as an empty mapping are taken as no attrs at all. *)
Theorem init_attrs_key_parity {num : Type} `{Scalar num}
    (traces : Py.dict (list num)) (attrs : Py.dict (string * string)) :
  2 <= List.length traces ->
  (attrs <> [] ->
   NoDup (Py.keys attrs) ->
   ~ key_parity attrs traces ->
   init traces (Some attrs)
   = Raise (ValueError "The keys of 'traces' and 'attrs' must match."))
  /\ init traces (Some []) = init traces None.
Proof.
  intros H2.
  destruct traces as [| [k0 v0] [| [k1 v1] rest]]; try (simpl in H2; lia).
  split; [| reflexivity].
  intros Hne Hnd Hp.
  rewrite init_unfold. unfold check_attrs.
  destruct attrs as [| kv attrs]; [congruence |]. cbn [Py.truthy].
  destruct (Py.keys_eq _ _) eqn:Hk; [| reflexivity].
  exfalso. apply Hp. now apply keys_eq_parity.
Qed.

Lemma init_attrs_key_parity_witness :
  2 <= List.length wl_p1_p2
  /\ init wl_p1_p2
       (Some [("wl", ("Wavelength", "nm")); ("p1", ("Power", "W"));
              ("p3", ("Power 3", "W"))])
     = Raise (ValueError "The keys of 'traces' and 'attrs' must match.").
Proof.
  split; [simpl; lia |].
  apply init_attrs_key_parity.
  - simpl; lia.
  - discriminate.
  - apply distinct_NoDup. reflexivity.
  - intros Hp.
    assert (In "p3" (Py.keys wl_p1_p2)) as Hbad by (apply Hp; simpl; tauto).
    simpl in Hbad. intuition discriminate.
Defined.

(** C5 as stated fails for attrs supplied as an empty mapping: they are taken
    as no attrs at all, and the sweep is built. *)
Lemma init_empty_attrs_accepted :
  init wl_p1_p2 (Some []) = Ok bare
  /\ ~ key_parity (@nil (string * (string * string))) wl_p1_p2.
Proof.
  split; [reflexivity |]. intros Hp.
  assert (In "wl" (Py.keys (@nil (string * (string * string))))) as Hbad
    by (apply Hp; simpl; tauto).
  exact Hbad.
Qed.

(** * Every sweep is valid *)

Lemma built_valid {num : Type} `{Scalar num} (self : Sweep num) :
  built self -> valid self = true.
Proof.
  intros Hb. apply valid_spec.
  induction Hb as [traces attrs self Hnd Hat Hi | self col coeff unit desc _ IH].
  - exact (init_valid traces attrs self Hnd Hat Hi).
  - now apply change_unit_valid.
Qed.

(** * More on construction *)

Section ConstructionMore.
Context {num : Type} `{Scalar num}.
Implicit Types (traces items : Py.dict (list num)) (rg : Py.dict (num * num)).

(** What can stop the loop of [__init__]. *)
Lemma init_loop_error n items rg e :
  init_loop n items rg = Raise e ->
  e = zero_size "minimum"
  \/ exists k, In k (Py.keys items) /\ e = ValueError (length_msg k).
Proof.
  revert rg. induction items as [| [k v] items IH]; intros rg; simpl.
  - discriminate.
  - destruct v as [| a v]; [intros [= <-]; now left |].
    cbn [np_min np_max bind Ok].
    destruct (Nat.eqb (List.length (a :: v)) n); cbn [negb].
    + intros Hl. destruct (IH _ Hl) as [-> | [k' [Hin ->]]]; [now left |].
      right. exists k'. split; [now right | reflexivity].
    + intros [= <-]. right. exists k. split; [now left | reflexivity].
Qed.

(** A loop that ends has seen no empty trace. *)
Lemma init_loop_ok_nonempty n items rg rg' :
  init_loop n items rg = Ok rg' -> items <> [] -> n <> 0.
Proof.
  destruct items as [| [k v] items]; [congruence |]. simpl.
  destruct v as [| a v]; [discriminate |]. cbn [np_min np_max bind Ok].
  destruct (Nat.eqb_spec (List.length (a :: v)) n) as [<- | Hn];
    [| discriminate].
  intros _ _. simpl. discriminate.
Qed.

(** The ranges the loop leaves: one entry per trace, the minimum and the
    maximum of its values, after the entries it started from. *)
Lemma init_loop_ranges n items rg rg' :
  NoDup (Py.keys items) ->
  init_loop n items rg = Ok rg' ->
  (forall k v, In (k, v) items ->
     exists lo hi, np_min v = Ok lo /\ np_max v = Ok hi
                   /\ Py.get rg' k = Some (lo, hi))
  /\ (forall k, ~ In k (Py.keys items) -> Py.get rg' k = Py.get rg k).
Proof.
  intros Hnd. revert rg.
  induction items as [| [k v] items IH]; intros rg; simpl.
  - intros [= <-]. split; [intros k v [] | reflexivity].
  - inversion Hnd as [| ? ? Hfresh Hnd']; subst.
    destruct (np_min v) as [e | lo] eqn:Hlo; [discriminate |].
    destruct (np_max v) as [e | hi] eqn:Hhi; [discriminate |]. cbn [bind].
    destruct (Nat.eqb (List.length v) n); cbn [negb]; [| discriminate].
    intros Hl. destruct (IH Hnd' _ Hl) as [Hin Hout]. split.
    + intros k' v' [[= <- <-] | Hin'].
      * exists lo, hi. rewrite Hlo, Hhi. repeat split.
        rewrite (Hout k Hfresh). apply get_set_same.
      * exact (Hin k' v' Hin').
    + intros k' Hk'. rewrite Hout by tauto. apply get_set_other. tauto.
Qed.

Lemma init_loop_ranges_keys n items rg rg' :
  NoDup (Py.keys items) ->
  (forall k, In k (Py.keys items) -> ~ In k (Py.keys rg)) ->
  init_loop n items rg = Ok rg' ->
  Py.keys rg' = (Py.keys rg ++ Py.keys items)%list.
Proof.
  intros Hnd. revert rg.
  induction items as [| [k v] items IH]; intros rg Hfresh; simpl.
  - intros [= <-]. now rewrite app_nil_r.
  - inversion Hnd as [| ? ? Hk Hnd']; subst.
    destruct (np_min v) as [e | lo]; [discriminate |].
    destruct (np_max v) as [e | hi]; [discriminate |]. cbn [bind].
    destruct (Nat.eqb (List.length v) n); cbn [negb]; [| discriminate].
    intros Hl.
    assert (Py.set rg k (lo, hi) = (rg ++ [(k, (lo, hi))])%list) as Hset.
    { assert (~ In k (Py.keys rg)) as Hno by (apply Hfresh; now left).
      clear - Hno. induction rg as [| [k' v'] rg IHr]; simpl; [reflexivity |].
      eqb_cases k' k; [exfalso; apply Hno; now left |].
      rewrite IHr; [reflexivity |]. intros Hin. apply Hno. now right. }
    rewrite (IH Hnd' _) with (2 := Hl).
    + rewrite Hset. unfold Py.keys. rewrite map_app. simpl.
      now rewrite <- app_assoc.
    + intros k' Hin. rewrite Hset. unfold Py.keys. rewrite map_app.
      intros Hin'. apply in_app_or in Hin'. destruct Hin' as [Hin' | [<- | []]].
      * apply (Hfresh k'); [now right | exact Hin'].
      * exact (Hk Hin).
Qed.
End ConstructionMore.

Section ConstructionOutcome.
Context {num : Type} `{Scalar num}.
Implicit Types (traces : Py.dict (list num)).

Lemma check_attrs_error traces (given : option (Py.dict (string * string))) e :
  check_attrs traces given = Raise e ->
  e = ValueError "The keys of 'traces' and 'attrs' must match.".
Proof.
  unfold check_attrs. destruct given as [a |]; [| discriminate].
  destruct (Py.truthy a); [| discriminate].
  destruct (Py.keys_eq a traces); cbn [negb]; [discriminate |].
  now intros [= <-].
Qed.

Lemma check_attrs_accepts traces (given : option (Py.dict (string * string))) :
  NoDup (Py.keys traces) ->
  (forall a, given = Some a -> NoDup (Py.keys a)) ->
  (exists a, check_attrs traces given = Ok a)
  <-> given = None \/ given = Some []
      \/ exists a, given = Some a /\ key_parity a traces.
Proof.
  intros Hnt Hna. unfold check_attrs.
  destruct given as [[| kv a] |]; cbn [Py.truthy].
  - split; [intros _; right; now left | intros _; now eexists].
  - pose proof (Hna _ eq_refl) as Hnd.
    destruct (Py.keys_eq (kv :: a) traces) eqn:Hk; cbn [negb].
    + split; [| intros _; now eexists].
      intros _. right. right. exists (kv :: a).
      split; [reflexivity | now apply keys_eq_parity].
    + split; [intros [a' Ha]; discriminate |].
      intros [Hn | [Hn | [a' [[= <-] Hp]]]]; try discriminate.
      rewrite (parity_keys_eq _ _ Hnd Hnt Hp) in Hk. discriminate.
  - split; [intros _; now left | intros _; now eexists].
Qed.
End ConstructionOutcome.

(** X1.  The error for too few traces is raised exactly when fewer than two
    traces are supplied, whatever the attrs are. *)
Theorem init_arity_error {num : Type} `{Scalar num}
    (traces : Py.dict (list num))
    (given : option (Py.dict (string * string))) :
  init traces given
  = Raise (ValueError "There must be more than 1 trace of data to make a sweep.")
  <-> List.length traces < 2.
Proof.
  split; [| apply init_too_few].
  destruct traces as [| [k0 v0] [| [k1 v1] rest]]; try (simpl; lia).
  rewrite init_unfold.
  destruct (check_attrs _ given) as [e | a] eqn:Hc.
  - apply check_attrs_error in Hc. subst e. discriminate.
  - cbn [bind]. destruct (init_loop _ _ _) as [e | rg] eqn:Hl; [| discriminate].
    cbn [bind]. apply init_loop_error in Hl.
    destruct Hl as [-> | [k [_ ->]]]; discriminate.
Qed.

(** X2.  Whatever makes construction fail, the exception is a
    [ValueError]: neither the alias lookup nor the item access of
    [__init__] can raise. *)
Theorem init_raises_value_errors {num : Type} `{Scalar num}
    (traces : Py.dict (list num))
    (given : option (Py.dict (string * string))) (e : exn) :
  init traces given = Raise e -> exists msg, e = ValueError msg.
Proof.
  destruct traces as [| [k0 v0] [| [k1 v1] rest]];
    try (rewrite init_too_few by (simpl; lia); intros [= <-]; now eexists).
  rewrite init_unfold.
  destruct (check_attrs _ given) as [e' | a] eqn:Hc.
  - apply check_attrs_error in Hc. subst e'. intros [= <-]. now eexists.
  - cbn [bind]. destruct (init_loop _ _ _) as [e' | rg] eqn:Hl; [| discriminate].
    cbn [bind]. apply init_loop_error in Hl. intros [= <-].
    destruct Hl as [-> | [k [_ ->]]]; now eexists.
Qed.

Lemma init_raises_value_errors_witness :
  init [("a", [1; 2]); ("b", [1])]%Z None
  = Raise (ValueError (length_msg "b"))
  /\ exists msg, ValueError (length_msg "b") = ValueError msg.
Proof.
  assert (init [("a", [1; 2]); ("b", [1])]%Z None
          = Raise (ValueError (length_msg "b"))) as Hi by reflexivity.
  split; [exact Hi |].
  exact (init_raises_value_errors _ _ _ Hi).
Defined.

(** X3.  Construction succeeds exactly when there are two traces or more,
    the attrs are absent, empty or keyed by the names of the traces, and the
    traces are not empty and all of the length of the first. *)
Theorem init_succeeds_iff {num : Type} `{Scalar num}
    (traces : Py.dict (list num))
    (given : option (Py.dict (string * string))) :
  NoDup (Py.keys traces) ->
  (forall a, given = Some a -> NoDup (Py.keys a)) ->
  (exists self, init traces given = Ok self)
  <-> 2 <= List.length traces
      /\ (given = None \/ given = Some []
          \/ exists a, given = Some a /\ key_parity a traces)
      /\ first_length traces <> 0
      /\ Forall (has_length (first_length traces)) traces.
Proof.
  intros Hnt Hna. rewrite <- (check_attrs_accepts traces given Hnt Hna).
  destruct traces as [| [k0 v0] [| [k1 v1] rest]].
  - rewrite init_too_few by (simpl; lia).
    split; [intros [self Hs]; discriminate | simpl; lia].
  - rewrite init_too_few by (simpl; lia).
    split; [intros [self Hs]; discriminate | simpl; lia].
  - rewrite init_unfold. cbn [first_length]. split.
    + intros [self Hs].
      destruct (check_attrs _ given) as [e | a]; [discriminate |].
      cbn [bind] in Hs.
      destruct (init_loop _ _ _) as [e | rg] eqn:Hl; [discriminate |].
      split; [simpl; lia |]. split; [now exists a |]. split.
      * apply (init_loop_ok_nonempty _ _ _ _ Hl). discriminate.
      * exact (init_loop_ok_inv _ _ _ _ Hl).
    + intros (_ & [a ->] & Hn & Hall). cbn [bind].
      destruct (init_loop_ok _ _ [] Hn Hall) as [rg ->]. cbn [bind].
      now eexists.
Qed.

Lemma init_succeeds_iff_witness :
  NoDup (Py.keys wl_p1_p2)
  /\ ((exists self, init wl_p1_p2 (Some power_attrs) = Ok self)
      <-> 2 <= List.length wl_p1_p2
          /\ (Some power_attrs = None \/ Some power_attrs = Some []
              \/ exists a, Some power_attrs = Some a /\ key_parity a wl_p1_p2)
          /\ first_length wl_p1_p2 <> 0
          /\ Forall (has_length (first_length wl_p1_p2)) wl_p1_p2).
Proof.
  assert (NoDup (Py.keys wl_p1_p2)) as Hnt
    by (apply distinct_NoDup; reflexivity).
  split; [exact Hnt |].
  apply (init_succeeds_iff wl_p1_p2 (Some power_attrs) Hnt).
  intros a [= <-]. apply distinct_NoDup. reflexivity.
Defined.

(** The fields [__init__] fills. *)
Lemma init_fields {num : Type} `{Scalar num}
    (traces : Py.dict (list num))
    (given : option (Py.dict (string * string))) (self : Sweep num) :
  NoDup (Py.keys traces) ->
  init traces given = Ok self ->
  _traces self = traces
  /\ attrs self = match given with Some a => a | None => [] end
  /\ len self = first_length traces
  /\ Py.keys (ranges self) = Py.keys traces
  /\ forall k v,
       Py.get traces k = Some v ->
       exists lo hi,
         np_min v = Ok lo /\ np_max v = Ok hi
         /\ Py.get (ranges self) k = Some (lo, hi).
Proof.
  intros Hnd.
  destruct traces as [| [k0 v0] [| [k1 v1] rest]];
    try (rewrite init_too_few by (simpl; lia); discriminate).
  rewrite init_unfold.
  destruct (check_attrs _ given) as [e | a] eqn:Hc; [discriminate |].
  cbn [bind]. destruct (init_loop _ _ _) as [e | rg] eqn:Hl; [discriminate |].
  cbn [bind]. intros [= <-]. unfold attrs, ranges, len.
  cbn [_traces _attrs _len _ranges first_length].
  split; [reflexivity |]. split.
  { unfold check_attrs in Hc. destruct given as [[| kv a'] |];
      cbn [Py.truthy] in Hc; try (now injection Hc as <-).
    destruct (Py.keys_eq (kv :: a') _); cbn [negb] in Hc; [| discriminate].
    now injection Hc as <-. }
  split; [reflexivity |]. split.
  - rewrite (init_loop_ranges_keys _ _ _ _ Hnd) with (2 := Hl); [reflexivity |].
    intros k _ [].
  - intros k v Hg.
    exact (proj1 (init_loop_ranges _ _ _ _ Hnd Hl) k v (get_In _ _ _ Hg)).
Qed.

(** X4.  What a constructed sweep holds: the traces as supplied, the attrs
    as supplied or none, the length of the first trace as its length, and
    one range per trace, in the order of the traces, made of the minimum and
    the maximum of its values. *)
Theorem init_contents {num : Type} `{Scalar num}
    (traces : Py.dict (list num))
    (given : option (Py.dict (string * string))) (self : Sweep num) :
  NoDup (Py.keys traces) ->
  init traces given = Ok self ->
  _traces self = traces
  /\ attrs self = match given with Some a => a | None => [] end
  /\ len self = first_length traces
  /\ Py.keys (ranges self) = Py.keys traces
  /\ forall k v,
       Py.get traces k = Some v ->
       exists lo hi,
         np_min v = Ok lo /\ np_max v = Ok hi
         /\ Py.get (ranges self) k = Some (lo, hi).
Proof. exact (init_fields traces given self). Qed.

Lemma init_contents_witness :
  NoDup (Py.keys wl_p1_p2)
  /\ init wl_p1_p2 (Some power_attrs) = Ok annotated
  /\ Py.keys (ranges annotated) = Py.keys wl_p1_p2
  /\ len annotated = first_length wl_p1_p2.
Proof.
  assert (NoDup (Py.keys wl_p1_p2)) as Hnt
    by (apply distinct_NoDup; reflexivity).
  split; [exact Hnt |]. split; [reflexivity |].
  destruct (init_contents wl_p1_p2 (Some power_attrs) annotated Hnt
              annotated_built) as (_ & _ & Hlen & Hk & _).
  split; [exact Hk | exact Hlen].
Defined.

(** The minimum and the maximum [np.min] and [np.max] fold over integers. *)
Lemma fold_min_spec (rest : list Z) (a : Z) :
  In (fold_left Z.min rest a) (a :: rest)
  /\ forall x, In x (a :: rest) -> (fold_left Z.min rest a <= x)%Z.
Proof.
  revert a. induction rest as [| b rest IH]; intros a; simpl.
  - split; [now left | intros x [<- | []]; lia].
  - destruct (IH (Z.min a b)) as [Hin Hle]. split.
    + destruct Hin as [Heq | Hin]; [| right; now right].
      rewrite <- Heq. destruct (Z.min_spec a b) as [[_ ->] | [_ ->]];
        [now left | right; now left].
    + intros x Hx.
      assert (fold_left Z.min rest (Z.min a b) <= Z.min a b)%Z as Hm
        by (apply Hle; now left).
      destruct Hx as [<- | [<- | Hx]]; [lia | lia |].
      apply Hle. now right.
Qed.

Lemma fold_max_spec (rest : list Z) (a : Z) :
  In (fold_left Z.max rest a) (a :: rest)
  /\ forall x, In x (a :: rest) -> (x <= fold_left Z.max rest a)%Z.
Proof.
  revert a. induction rest as [| b rest IH]; intros a; simpl.
  - split; [now left | intros x [<- | []]; lia].
  - destruct (IH (Z.max a b)) as [Hin Hle]. split.
    + destruct Hin as [Heq | Hin]; [| right; now right].
      rewrite <- Heq. destruct (Z.max_spec a b) as [[_ ->] | [_ ->]];
        [right; now left | now left].
    + intros x Hx.
      assert (Z.max a b <= fold_left Z.max rest (Z.max a b))%Z as Hm
        by (apply Hle; now left).
      destruct Hx as [<- | [<- | Hx]]; [lia | lia |].
      apply Hle. now right.
Qed.

(** X5.  For integer-valued traces the range of a trace at construction is
    made of two of its values, the first below or equal to every value of the
    trace and the second above or equal to every one. *)
Theorem init_ranges_int64
    (traces : Py.dict (list Z)) (given : option (Py.dict (string * string)))
    (self : Sweep Z) (k : string) (v : list Z) :
  NoDup (Py.keys traces) ->
  init traces given = Ok self ->
  Py.get traces k = Some v ->
  exists lo hi,
    Py.get (ranges self) k = Some (lo, hi)
    /\ In lo v /\ In hi v
    /\ forall x, In x v -> (lo <= x <= hi)%Z.
Proof.
  intros Hnd Hi Hg.
  destruct (init_fields traces given self Hnd Hi) as (_ & _ & _ & _ & Hr).
  destruct (Hr k v Hg) as (lo & hi & Hlo & Hhi & Hget).
  exists lo, hi. split; [exact Hget |].
  destruct v as [| a rest]; [discriminate |].
  injection Hlo as <-. injection Hhi as <-.
  destruct (fold_min_spec rest a) as [Hin1 Hle1].
  destruct (fold_max_spec rest a) as [Hin2 Hle2].
  split; [exact Hin1 |]. split; [exact Hin2 |].
  intros x Hx. split; [now apply Hle1 | now apply Hle2].
Qed.

Lemma init_ranges_int64_witness :
  NoDup (Py.keys wl_p1_p2)
  /\ init wl_p1_p2 (Some power_attrs) = Ok annotated
  /\ Py.get wl_p1_p2 "p2" = Some [3; 1; 4]%Z
  /\ exists lo hi,
       Py.get (ranges annotated) "p2" = Some (lo, hi)
       /\ In lo [3; 1; 4]%Z /\ In hi [3; 1; 4]%Z
       /\ forall x, In x [3; 1; 4]%Z -> (lo <= x <= hi)%Z.
Proof.
  assert (NoDup (Py.keys wl_p1_p2)) as Hnt
    by (apply distinct_NoDup; reflexivity).
  split; [exact Hnt |]. split; [reflexivity |]. split; [reflexivity |].
  apply (init_ranges_int64 wl_p1_p2 (Some power_attrs) annotated "p2"
           [3; 1; 4]%Z Hnt annotated_built).
  reflexivity.
Defined.

(** The range the specification lists for the trace 3, 1, 4, 1, 5. *)
Example ranges_p1 :
  match init [("wl", [0; 1; 2; 3; 4]); ("p1", [3; 1; 4; 1; 5])]%Z None with
  | inr self => Py.get (ranges self) "p1" = Some (1, 5)%Z
  | inl _ => False
  end.
Proof. reflexivity. Qed.

(** * More on rescaling and on the invariant *)

Section Frame.
Context {num : Type} `{Scalar num}.
Implicit Types (self : Sweep num) (coeff : num).

(** An alias that points at no trace stops [change_unit] at the item
    access, before anything is assigned. *)
Lemma change_unit_no_trace self col c coeff unit desc :
  get_trace_col self col = Ok c -> Py.get (_traces self) c = None ->
  change_unit col coeff unit desc self = (Raise (KeyError c), self).
Proof.
  intros Hr Hg. unfold change_unit, mbind, lift, lookup.
  rewrite Hr. cbn [Ok]. now rewrite Hg.
Qed.

(** The three outcomes of a call, by what the name resolves to. *)
Lemma change_unit_cases self col coeff unit desc :
  change_unit col coeff unit desc self
  = (fst (change_unit col coeff unit desc self), self)
  \/ exists c v,
       get_trace_col self col = Ok c /\ Py.get (_traces self) c = Some v
       /\ (snd (change_unit col coeff unit desc self) = scaled self c coeff v
           \/ exists entry,
                snd (change_unit col coeff unit desc self)
                = set_attrs (Py.set (_attrs self) c entry)
                    (scaled self c coeff v)).
Proof.
  destruct (get_trace_col self col) as [e | c] eqn:Hr.
  - left. now rewrite (change_unit_unresolved _ _ _ _ _ _ Hr).
  - destruct (Py.get (_traces self) c) as [v |] eqn:Hg.
    + destruct (coeff_error coeff) as [e |] eqn:Hc;
        [left; now rewrite (change_unit_rejected _ _ _ _ _ _ _ _ Hr Hg Hc) |].
      right. exists c, v. split; [reflexivity |]. split; [exact Hg |].
      rewrite (change_unit_run _ _ _ _ _ _ _ Hr Hg Hc). cbv zeta.
      destruct (Py.truthy (_attrs self)); [| now left].
      destruct (negb (Py.truthy_str unit)); [now left |].
      destruct (Py.truthy_str desc); [right; now eexists |].
      destruct (Py.get (_attrs self) c); [right; now eexists | now left].
    + left. now rewrite (change_unit_no_trace _ _ _ _ _ _ Hr Hg).
Qed.
End Frame.

(** What no call changes. *)
Lemma change_unit_keeps {num : Type} `{Scalar num}
    (self : Sweep num) (col : string) (coeff : num)
    (unit desc : option string) :
  _aliases (snd (change_unit col coeff unit desc self)) = _aliases self
  /\ ranges (snd (change_unit col coeff unit desc self)) = ranges self
  /\ len (snd (change_unit col coeff unit desc self)) = len self
  /\ Py.keys (_traces (snd (change_unit col coeff unit desc self)))
     = Py.keys (_traces self).
Proof.
  destruct (change_unit_cases self col coeff unit desc)
    as [-> | (c & v & _ & Hg & [-> | [entry ->]])];
    unfold ranges, len, scaled, set_attrs, set_traces;
    cbn [snd _aliases _ranges _len _traces];
    repeat split; exact (keys_set_present _ _ _ _ Hg).
Qed.

(** X6.  [change_unit] never touches the aliases, the ranges or the cached
    length, and never adds, drops or reorders a trace, whether it returns or
    raises: the ranges stay those of construction. *)
Theorem change_unit_frame {num : Type} `{Scalar num}
    (self : Sweep num) (col : string) (coeff : num)
    (unit desc : option string) :
  _aliases (snd (change_unit col coeff unit desc self)) = _aliases self
  /\ ranges (snd (change_unit col coeff unit desc self)) = ranges self
  /\ len (snd (change_unit col coeff unit desc self)) = len self
  /\ Py.keys (_traces (snd (change_unit col coeff unit desc self)))
     = Py.keys (_traces self).
Proof. exact (change_unit_keeps self col coeff unit desc). Qed.

(** The ranges of the sweep of the examples after its trace [p1] has been
    doubled: still those of the values 1, 2, 3. *)
Example ranges_after_rescaling :
  getitem (snd (change_unit "p1" 2%Z (Some "mW") None annotated)) "p1"
  = Ok [2; 4; 6]%Z
  /\ Py.get (ranges (snd (change_unit "p1" 2%Z (Some "mW") None annotated)))
       "p1" = Some (1, 3)%Z.
Proof. split; reflexivity. Qed.

Section BuiltFacts.
Context {num : Type} `{Scalar num}.
Implicit Types (self : Sweep num).

Lemma built_Valid self : built self -> Valid self.
Proof.
  intros Hb.
  induction Hb as [traces given self Hnd Hat Hi | self col coeff unit desc _ IH].
  - exact (init_valid traces given self Hnd Hat Hi).
  - now apply change_unit_valid.
Qed.

Lemma built_len_pos self : built self -> 1 <= _len self.
Proof.
  intros Hb.
  induction Hb as [traces given self _ _ Hi | self col coeff unit desc _ IH].
  - destruct traces as [| [k0 v0] [| [k1 v1] rest]];
      try (rewrite init_too_few in Hi by (simpl; lia); discriminate).
    rewrite init_unfold in Hi.
    destruct (check_attrs _ given) as [e | a]; [discriminate |].
    cbn [bind] in Hi.
    destruct (init_loop _ _ _) as [e | rg] eqn:Hl; [discriminate |].
    cbn [bind] in Hi. injection Hi as <-. cbn [_len].
    assert (List.length v0 <> 0); [| lia].
    apply (init_loop_ok_nonempty _ _ _ _ Hl). discriminate.
  - destruct (change_unit_keeps self col coeff unit desc) as (_ & _ & Hlen & _).
    unfold len in Hlen. now rewrite Hlen.
Qed.

Lemma getitem_inv self col v :
  getitem self col = Ok v ->
  exists c, get_trace_col self col = Ok c /\ Py.get (_traces self) c = Some v.
Proof.
  unfold getitem. destruct (get_trace_col self col) as [e | c]; [discriminate |].
  cbn [bind]. destruct (Py.get (_traces self) c) as [v' |] eqn:Hg;
    [| discriminate].
  intros [= <-]. now exists c.
Qed.
End BuiltFacts.

Lemma annotated_is_built : built annotated.
Proof.
  apply (built_init wl_p1_p2 (Some power_attrs)).
  - apply distinct_NoDup. reflexivity.
  - intros a [= <-]. apply distinct_NoDup. reflexivity.
  - reflexivity.
Qed.

Lemma bare_is_built : built bare.
Proof.
  apply (built_init wl_p1_p2 None).
  - apply distinct_NoDup. reflexivity.
  - discriminate.
  - reflexivity.
Qed.

Lemma single_is_built : built single.
Proof.
  apply (built_init [("t", [7]); ("u", [9])]%Z None).
  - apply distinct_NoDup. reflexivity.
  - discriminate.
  - reflexivity.
Qed.

(** X7.  In a sweep a program can hold, after any number of rescalings,
    failed ones included, every trace that item access returns has the
    length [len] gives, and that length is never zero. *)
Theorem built_trace_lengths {num : Type} `{Scalar num}
    (self : Sweep num) (col : string) (v : list num) :
  built self -> getitem self col = Ok v ->
  List.length v = len self /\ 1 <= len self.
Proof.
  intros Hb Hg. split; [| exact (built_len_pos self Hb)].
  destruct (getitem_inv _ _ _ Hg) as [c [_ Hc]].
  pose proof (valid_lengths _ (built_Valid self Hb)) as Hl.
  exact (proj1 (Forall_forall _ _) Hl (c, v) (get_In _ _ _ Hc)).
Qed.

Lemma built_trace_lengths_witness :
  built (snd (change_unit "y" 2%Z None None annotated))
  /\ getitem (snd (change_unit "y" 2%Z None None annotated)) "y1"
     = Ok [3; 1; 4]%Z
  /\ List.length [3; 1; 4]%Z
     = len (snd (change_unit "y" 2%Z None None annotated))
  /\ 1 <= len (snd (change_unit "y" 2%Z None None annotated)).
Proof.
  assert (built (snd (change_unit "y" 2%Z None None annotated))) as Hb
    by (apply built_change_unit; exact annotated_is_built).
  split; [exact Hb |]. split; [reflexivity |].
  apply (built_trace_lengths _ "y1" [3; 1; 4]%Z Hb). reflexivity.
Defined.

(** X8.  In a sweep a program can hold every alias stays usable: its target
    is a trace of the sweep, and item access under the alias returns the
    values of that trace. *)
Theorem built_aliases_resolve {num : Type} `{Scalar num}
    (self : Sweep num) (alias target : string) :
  built self -> Py.get (_aliases self) alias = Some target ->
  exists v,
    Py.get (_traces self) target = Some v /\ getitem self alias = Ok v.
Proof.
  intros Hb Ha. pose proof (built_Valid self Hb) as Hv.
  assert (get_trace_col self alias = Ok target) as Hr
    by (unfold get_trace_col; now rewrite Ha).
  destruct (resolved_trace self alias target Hv Hr) as [v Hg].
  exists v. split; [exact Hg |]. unfold getitem. rewrite Hr. cbn [bind Ok].
  now rewrite Hg.
Qed.

Lemma built_aliases_resolve_witness :
  built annotated /\ Py.get (_aliases annotated) "y" = Some "p1"
  /\ exists v,
       Py.get (_traces annotated) "p1" = Some v /\ getitem annotated "y" = Ok v.
Proof.
  split; [exact annotated_is_built |]. split; [reflexivity |].
  apply (built_aliases_resolve annotated "y" "p1" annotated_is_built).
  reflexivity.
Defined.

(** X9.  In a sweep a program can hold, [x_col] is the name of the first
    trace and [y_cols] the names of the others, in order: there is at least
    one, none of them is [x_col], and the alias [y{i}] resolves to the
    [i]-th of them. *)
Theorem x_col_y_cols {num : Type} `{Scalar num} (self : Sweep num) :
  built self ->
  exists k0,
    x_col self = Ok k0
    /\ Py.keys (_traces self) = k0 :: y_cols self
    /\ y_cols self <> []
    /\ ~ In k0 (y_cols self)
    /\ forall i k,
         nth_error (y_cols self) i = Some k ->
         get_trace_col self ("y" ++ str_nat i) = Ok k.
Proof.
  intros Hb. destruct (built_Valid self Hb) as [H2 Hn Ha _ _].
  unfold x_col, y_cols, lookup.
  destruct (Py.keys (_traces self)) as [| k0 [| k1 rest]] eqn:Hk;
    try discriminate Ha.
  rewrite make_aliases_eq in Ha.
  assert (Py.update [("x", k0); ("y", k1)] (y_items (k1 :: rest))
          = _aliases self) as Heq by (unfold Ok in Ha; congruence).
  exists k0. rewrite <- Heq, alias_x. cbn [tl].
  split; [reflexivity |]. split; [reflexivity |]. split; [discriminate |].
  split; [now inversion Hn |].
  intros i k Hi. unfold get_trace_col. rewrite <- Heq.
  now rewrite (alias_yi k0 k1 rest i k Hi).
Qed.

Lemma x_col_y_cols_witness :
  built annotated
  /\ exists k0,
       x_col annotated = Ok k0
       /\ Py.keys (_traces annotated) = k0 :: y_cols annotated
       /\ y_cols annotated <> []
       /\ ~ In k0 (y_cols annotated)
       /\ forall i k,
            nth_error (y_cols annotated) i = Some k ->
            get_trace_col annotated ("y" ++ str_nat i) = Ok k.
Proof.
  split; [exact annotated_is_built |].
  exact (x_col_y_cols annotated annotated_is_built).
Defined.

(** X10.  In a sweep a program can hold, attrs that are not empty have an
    entry for every trace and for nothing else, whatever rescalings came
    before. *)
Theorem built_attrs_parity {num : Type} `{Scalar num}
    (self : Sweep num) (k : string) :
  built self -> attrs self <> [] ->
  ((exists v, Py.get (_traces self) k = Some v)
   <-> exists entry, Py.get (attrs self) k = Some entry).
Proof.
  intros Hb Hne. destruct (built_Valid self Hb) as [_ _ _ _ Hat].
  unfold attrs in *. destruct Hat as [He | [_ Hp]]; [contradiction |].
  split; intros [x Hx]; apply In_keys_get; apply Hp;
    exact (get_In_keys _ _ _ Hx).
Qed.

Lemma built_attrs_parity_witness :
  built (snd (change_unit "p2" 3%Z (Some "mW") (Some "Optical Power") annotated))
  /\ ((exists v,
         Py.get (_traces (snd (change_unit "p2" 3%Z (Some "mW")
                                 (Some "Optical Power") annotated))) "p2"
         = Some v)
      <-> exists entry,
            Py.get (attrs (snd (change_unit "p2" 3%Z (Some "mW")
                                  (Some "Optical Power") annotated))) "p2"
            = Some entry).
Proof.
  assert (built (snd (change_unit "p2" 3%Z (Some "mW") (Some "Optical Power")
                        annotated))) as Hb
    by (apply built_change_unit; exact annotated_is_built).
  split; [exact Hb |].
  apply (built_attrs_parity _ "p2" Hb). discriminate.
Defined.

Section RescalingMore.
Context {num : Type} `{Scalar num}.
Implicit Types (self : Sweep num) (coeff : num) (v : list num).

(** On a sweep that is valid the object a call leaves, returning or
    raising, is the rescaled one. *)
Lemma change_unit_state self col c coeff v unit desc :
  Valid self -> get_trace_col self col = Ok c ->
  Py.get (_traces self) c = Some v ->
  snd (change_unit col coeff unit desc self)
  = rescaled self c coeff v unit desc.
Proof.
  intros Hv Hr Hg. unfold rescaled.
  destruct (coeff_error coeff) as [e |] eqn:Hc;
    [now rewrite (change_unit_rejected _ _ _ _ _ _ _ _ Hr Hg Hc) |].
  rewrite (change_unit_run _ _ _ _ _ _ _ Hr Hg Hc). cbv zeta.
  unfold attrs_after, scaled, set_attrs, set_traces.
  cbn [_attrs _traces _aliases _ranges _len].
  destruct (Py.truthy (_attrs self)) eqn:Ht; cbn [andb]; [| reflexivity].
  destruct (attrs_entry _ _ _ Hv Ht Hg) as [old ->].
  destruct (Py.truthy_str unit); cbn [negb]; [| reflexivity].
  destruct (Py.truthy_str desc); reflexivity.
Qed.

(** Name resolution reads the aliases and the names of the traces only. *)
Lemma get_trace_col_frame self self' col :
  _aliases self' = _aliases self ->
  Py.keys (_traces self') = Py.keys (_traces self) ->
  get_trace_col self' col = get_trace_col self col.
Proof.
  intros Ha Hk. unfold get_trace_col. rewrite Ha.
  destruct (Py.get (_aliases self) col); [reflexivity |].
  assert (Py.contains (_traces self') col = Py.contains (_traces self) col)
    as ->; [| reflexivity].
  apply Bool.eq_iff_eq_true. rewrite !contains_In. now rewrite Hk.
Qed.

Lemma get_trace_col_after self col col' coeff unit desc :
  get_trace_col (snd (change_unit col' coeff unit desc self)) col
  = get_trace_col self col.
Proof.
  destruct (change_unit_keeps self col' coeff unit desc) as (Ha & _ & _ & Hk).
  now apply get_trace_col_frame.
Qed.
End RescalingMore.

Lemma set_set_commute {V : Type} (d : Py.dict V) (k1 k2 : string) (v1 v2 : V) :
  k1 <> k2 -> In k1 (Py.keys d) -> In k2 (Py.keys d) ->
  Py.set (Py.set d k1 v1) k2 v2 = Py.set (Py.set d k2 v2) k1 v1.
Proof.
  intros Hne. induction d as [| [k v] d IH]; simpl; [tauto |].
  intros H1 H2. eqb_cases k k1.
  - simpl. rewrite (proj2 (String.eqb_neq k1 k2) Hne). simpl.
    now rewrite String.eqb_refl.
  - simpl. eqb_cases k k2.
    + simpl. rewrite (proj2 (String.eqb_neq k2 k1)) by congruence.
      reflexivity.
    + simpl. rewrite (proj2 (String.eqb_neq k k1) E).
      f_equal. apply IH; tauto.
Qed.

(** X11.  [change_unit] under a name that is neither an alias nor a trace
    raises the lookup error that names it and leaves the sweep as it was:
    nothing is multiplied. *)
Theorem change_unit_unknown_name {num : Type} `{Scalar num}
    (self : Sweep num) (col : string) (coeff : num)
    (unit desc : option string) :
  ~ In col (Py.keys (_aliases self)) ->
  ~ In col (Py.keys (_traces self)) ->
  change_unit col coeff unit desc self
  = (Raise (KeyError ("The trace '" ++ col ++ "' does not exist")), self).
Proof.
  intros Ha Ht. apply change_unit_unresolved.
  unfold get_trace_col. rewrite (proj2 (get_None_not_In _ _) Ha).
  destruct (Py.contains (_traces self) col) eqn:Hc; [| reflexivity].
  apply contains_In in Hc. contradiction.
Qed.

Lemma change_unit_unknown_name_witness :
  change_unit "p7" 2%Z (Some "mW") None annotated
  = (Raise (KeyError "The trace 'p7' does not exist"), annotated).
Proof.
  apply (change_unit_unknown_name annotated "p7");
    apply not_in_keys; reflexivity.
Defined.

(** X12.  On a sweep without attrs [change_unit] under a name that resolves,
    with a coefficient the product takes, returns, with or without unit and
    description, and is a numeric operation only: the trace is multiplied
    and the attrs stay empty. *)
Theorem change_unit_without_attrs {num : Type} `{Scalar num}
    (self : Sweep num) (col c : string) (coeff : num)
    (unit desc : option string) :
  built self -> attrs self = [] -> get_trace_col self col = Ok c ->
  coeff_error coeff = None ->
  exists v,
    Py.get (_traces self) c = Some v
    /\ fst (change_unit col coeff unit desc self) = Ok tt
    /\ getitem (snd (change_unit col coeff unit desc self)) col
       = Ok (map (mul coeff) v)
    /\ attrs (snd (change_unit col coeff unit desc self)) = [].
Proof.
  intros Hb He Hr Hc. unfold attrs in *.
  pose proof (built_Valid self Hb) as Hv.
  destruct (resolved_trace _ _ _ Hv Hr) as [v Hg]. exists v.
  split; [exact Hg |].
  rewrite (change_unit_run _ _ _ _ _ _ _ Hr Hg Hc). cbv zeta.
  rewrite He. cbn [Py.truthy fst snd]. split; [reflexivity |].
  split; [| unfold scaled, set_traces; cbn [_attrs]; exact He].
  unfold getitem.
  rewrite (get_trace_col_frame self (scaled self c coeff v) col);
    [| reflexivity
     | unfold scaled, set_traces; cbn [_traces];
       exact (keys_set_present _ _ _ _ Hg)].
  rewrite Hr. cbn [bind Ok]. unfold scaled, set_traces. cbn [_traces].
  now rewrite get_set_same.
Qed.

Lemma change_unit_without_attrs_witness :
  built bare /\ attrs bare = [] /\ get_trace_col bare "y1" = Ok "p2"
  /\ coeff_error 2%Z = None
  /\ exists v,
       Py.get (_traces bare) "p2" = Some v
       /\ fst (change_unit "y1" 2%Z None None bare) = Ok tt
       /\ getitem (snd (change_unit "y1" 2%Z None None bare)) "y1"
          = Ok (map (mul 2%Z) v)
       /\ attrs (snd (change_unit "y1" 2%Z None None bare)) = [].
Proof.
  split; [exact bare_is_built |]. split; [reflexivity |].
  split; [reflexivity |]. split; [reflexivity |].
  apply (change_unit_without_attrs bare "y1" "p2" 2%Z None None bare_is_built);
    reflexivity.
Defined.

(** X18.  [change_unit] under a name that resolves, with a coefficient the
    product raises on, raises that exception whatever the unit and the
    description are, and leaves the sweep as it was: the product comes
    before the assignment and before the unit check. *)
Theorem change_unit_coefficient_rejected {num : Type} `{Scalar num}
    (self : Sweep num) (col c : string) (coeff : num)
    (unit desc : option string) (e : exn) :
  built self -> get_trace_col self col = Ok c ->
  coeff_error coeff = Some e ->
  change_unit col coeff unit desc self = (Raise e, self).
Proof.
  intros Hb Hr Hc. pose proof (built_Valid self Hb) as Hv.
  destruct (resolved_trace _ _ _ Hv Hr) as [v Hg].
  exact (change_unit_rejected _ _ _ _ _ _ _ _ Hr Hg Hc).
Qed.

Lemma change_unit_coefficient_rejected_witness :
  built bare /\ get_trace_col bare "y" = Ok "p1"
  /\ coeff_error (2 ^ 63)%Z
     = Some (OverflowError
               "Python integer 9223372036854775808 out of bounds for int64")
  /\ change_unit "y" (2 ^ 63)%Z (Some "mW") None bare
     = (Raise (OverflowError
                 "Python integer 9223372036854775808 out of bounds for int64"),
        bare).
Proof.
  split; [exact bare_is_built |]. split; [reflexivity |].
  split; [reflexivity |].
  apply (change_unit_coefficient_rejected bare "y" "p1" (2 ^ 63)%Z
           (Some "mW") None _ bare_is_built); reflexivity.
Defined.

(** The products of the integer instance stay in the range of [int64], and
    its coefficients are taken exactly when they are in that range. *)
Lemma wrap64_in_int64 (z : Z) : in_int64 (wrap64 z) = true.
Proof.
  unfold in_int64, wrap64.
  pose proof (Z.mod_pos_bound (z + 2 ^ 63) (2 ^ 64) ltac:(lia)) as Hb.
  apply andb_true_iff. split; [apply Z.leb_le | apply Z.ltb_lt]; lia.
Qed.

Lemma int64_coeff_taken (c : Z) :
  coeff_error c = None <-> (- 2 ^ 63 <= c < 2 ^ 63)%Z.
Proof.
  cbn [coeff_error int64_scalar]. unfold int64_coeff_error, in_int64.
  destruct ((- 2 ^ 63 <=? c)%Z && (c <? 2 ^ 63)%Z) eqn:Hr.
  - apply andb_true_iff in Hr. destruct Hr as [Hl Hu].
    apply Z.leb_le in Hl. apply Z.ltb_lt in Hu. split; [lia | reflexivity].
  - split; [discriminate |]. intros [Hl Hu].
    apply Z.leb_le in Hl. apply Z.ltb_lt in Hu. rewrite Hl, Hu in Hr.
    discriminate.
Qed.

Section RescalingCompose.
Context {num : Type} `{Scalar num}.
Implicit Types (self : Sweep num) (coeff : num) (v : list num).
Implicit Types (a : Py.dict (string * string)).

Lemma truthy_set {V : Type} (d : Py.dict V) (k : string) (x : V) :
  Py.truthy (Py.set d k x) = true.
Proof.
  destruct d as [| [k' x'] d]; simpl; [reflexivity |].
  destruct (String.eqb k' k); reflexivity.
Qed.

Lemma truthy_attrs_after a c unit desc :
  Py.truthy (attrs_after a c unit desc) = Py.truthy a.
Proof.
  unfold attrs_after. destruct (Py.truthy a) eqn:Ht; cbn [andb].
  - destruct (Py.truthy_str unit); [apply truthy_set | exact Ht].
  - exact Ht.
Qed.

Lemma get_attrs_after_other a c k unit desc :
  k <> c -> Py.get (attrs_after a c unit desc) k = Py.get a k.
Proof.
  intros Hne. unfold attrs_after.
  destruct (Py.truthy a && Py.truthy_str unit); [| reflexivity].
  apply get_set_other. congruence.
Qed.

Lemma keys_attrs_after a c unit desc :
  In c (Py.keys a) -> Py.keys (attrs_after a c unit desc) = Py.keys a.
Proof.
  intros Hin. unfold attrs_after.
  destruct (Py.truthy a && Py.truthy_str unit); [| reflexivity].
  destruct (In_keys_get _ _ Hin) as [old Hold].
  exact (keys_set_present _ _ _ _ Hold).
Qed.

(** The attrs after two calls on different traces, in either order. *)
Lemma attrs_after_commute a c1 c2 unit1 desc1 unit2 desc2 :
  c1 <> c2 -> In c1 (Py.keys a) -> In c2 (Py.keys a) ->
  attrs_after (attrs_after a c1 unit1 desc1) c2 unit2 desc2
  = attrs_after (attrs_after a c2 unit2 desc2) c1 unit1 desc1.
Proof.
  intros Hne H1 H2. unfold attrs_after at 1 3.
  rewrite !truthy_attrs_after.
  rewrite (get_attrs_after_other a c1 c2) by congruence.
  rewrite (get_attrs_after_other a c2 c1) by congruence.
  unfold attrs_after.
  destruct (Py.truthy a); cbn [andb]; [| reflexivity].
  destruct (Py.truthy_str unit1), (Py.truthy_str unit2); try reflexivity.
  now apply set_set_commute.
Qed.

(** The sweep a call leaves is valid, with names resolving as before; with
    a coefficient the product takes the trace holds the multiplied values,
    and the other traces theirs. *)
Lemma rescaled_ready self col c coeff v unit desc :
  Valid self -> get_trace_col self col = Ok c ->
  Py.get (_traces self) c = Some v ->
  Valid (rescaled self c coeff v unit desc)
  /\ (forall col', get_trace_col (rescaled self c coeff v unit desc) col'
                   = get_trace_col self col')
  /\ (coeff_error coeff = None ->
      Py.get (_traces (rescaled self c coeff v unit desc)) c
      = Some (scale coeff v))
  /\ forall k, k <> c ->
       Py.get (_traces (rescaled self c coeff v unit desc)) k
       = Py.get (_traces self) k.
Proof.
  intros Hv Hr Hg.
  rewrite <- (change_unit_state self col c coeff v unit desc Hv Hr Hg).
  split; [now apply change_unit_valid |].
  split; [intros col'; apply get_trace_col_after |].
  rewrite (change_unit_state self col c coeff v unit desc Hv Hr Hg).
  unfold rescaled. split.
  - intros ->. cbn [_traces]. apply get_set_same.
  - intros k Hk. destruct (coeff_error coeff); [reflexivity |].
    cbn [_traces]. apply get_set_other. congruence.
Qed.
End RescalingCompose.

(** X13.  On a sweep with attrs a call of [change_unit] under a name that
    resolves to the trace [c] touches no attrs entry but that of [c], and
    adds, drops or reorders none, whether it returns or raises; when the
    unit is missing or empty the attrs are as they were. *)
Theorem change_unit_attrs_frame {num : Type} `{Scalar num}
    (self : Sweep num) (col c : string) (coeff : num)
    (unit desc : option string) :
  built self -> get_trace_col self col = Ok c ->
  Py.keys (attrs (snd (change_unit col coeff unit desc self)))
  = Py.keys (attrs self)
  /\ (forall k, k <> c ->
        Py.get (attrs (snd (change_unit col coeff unit desc self))) k
        = Py.get (attrs self) k)
  /\ (Py.truthy_str unit = false ->
      attrs (snd (change_unit col coeff unit desc self)) = attrs self).
Proof.
  intros Hb Hr. pose proof (built_Valid self Hb) as Hv.
  destruct (resolved_trace _ _ _ Hv Hr) as [v Hg].
  rewrite (change_unit_state self col c coeff v unit desc Hv Hr Hg).
  unfold attrs, rescaled.
  destruct (coeff_error coeff); [repeat split |]. cbn [_attrs].
  split; [| split].
  - destruct (Py.truthy (_attrs self)) eqn:Ht.
    + destruct (attrs_entry _ _ _ Hv Ht Hg) as [old Hold].
      apply keys_attrs_after. exact (get_In_keys _ _ _ Hold).
    + unfold attrs_after. now rewrite Ht.
  - intros k Hk. now apply get_attrs_after_other.
  - intros Hu. unfold attrs_after. rewrite Hu.
    now rewrite andb_false_r.
Qed.

Lemma change_unit_attrs_frame_witness :
  built annotated /\ get_trace_col annotated "y" = Ok "p1"
  /\ Py.keys (attrs (snd (change_unit "y" 2%Z (Some "mW") None annotated)))
     = Py.keys (attrs annotated)
  /\ Py.get (attrs (snd (change_unit "y" 2%Z (Some "mW") None annotated))) "p2"
     = Py.get (attrs annotated) "p2".
Proof.
  split; [exact annotated_is_built |]. split; [reflexivity |].
  destruct (change_unit_attrs_frame annotated "y" "p1" 2%Z (Some "mW") None
              annotated_is_built) as (Hk & Hother & _); [reflexivity |].
  split; [exact Hk |]. apply Hother. discriminate.
Defined.

(** X14.  Calls of [change_unit] on one trace accumulate: after two calls
    under a name that resolves, with coefficients the product takes, the
    trace holds its values multiplied by the first coefficient and then by
    the second, whatever the units and descriptions were and whether the
    calls returned or raised the missing-unit error. *)
Theorem change_unit_twice {num : Type} `{Scalar num}
    (self : Sweep num) (col : string) (v : list num) (coeff1 coeff2 : num)
    (unit1 desc1 unit2 desc2 : option string) :
  built self -> getitem self col = Ok v ->
  coeff_error coeff1 = None -> coeff_error coeff2 = None ->
  getitem
    (snd (change_unit col coeff2 unit2 desc2
            (snd (change_unit col coeff1 unit1 desc1 self)))) col
  = Ok (map (mul coeff2) (map (mul coeff1) v)).
Proof.
  intros Hb Hgi Hc1 Hc2. pose proof (built_Valid self Hb) as Hv.
  destruct (getitem_inv _ _ _ Hgi) as [c [Hr Hg]].
  rewrite (change_unit_state self col c coeff1 v unit1 desc1 Hv Hr Hg).
  destruct (rescaled_ready self col c coeff1 v unit1 desc1 Hv Hr Hg)
    as (Hv1 & Hr1 & Hg1 & _).
  specialize (Hg1 Hc1).
  rewrite (change_unit_state _ col c coeff2 (scale coeff1 v) unit2 desc2 Hv1)
    by first [rewrite Hr1; exact Hr | exact Hg1].
  destruct (rescaled_ready _ col c coeff2 (scale coeff1 v) unit2 desc2 Hv1)
    as (_ & Hr2 & Hg2 & _); [rewrite Hr1; exact Hr | exact Hg1 |].
  unfold getitem. rewrite Hr2, Hr1, Hr. cbn [bind Ok]. now rewrite (Hg2 Hc2).
Qed.

Lemma change_unit_twice_witness :
  built annotated /\ getitem annotated "p1" = Ok [1; 2; 3]%Z
  /\ coeff_error 2%Z = None /\ coeff_error 3%Z = None
  /\ getitem
       (snd (change_unit "p1" 3%Z (Some "mW") None
               (snd (change_unit "p1" 2%Z None None annotated)))) "p1"
     = Ok (map (mul 3%Z) (map (mul 2%Z) [1; 2; 3]%Z)).
Proof.
  split; [exact annotated_is_built |]. split; [reflexivity |].
  split; [reflexivity |]. split; [reflexivity |].
  apply (change_unit_twice annotated "p1" [1; 2; 3]%Z 2%Z 3%Z None None
           (Some "mW") None annotated_is_built); reflexivity.
Defined.

(** X15.  Calls of [change_unit] on two different traces commute: the sweep
    left by the two calls is the same in either order, whether the calls
    return or raise. *)
Theorem change_unit_commute {num : Type} `{Scalar num}
    (self : Sweep num) (col1 col2 c1 c2 : string) (coeff1 coeff2 : num)
    (unit1 desc1 unit2 desc2 : option string) :
  built self ->
  get_trace_col self col1 = Ok c1 -> get_trace_col self col2 = Ok c2 ->
  c1 <> c2 ->
  snd (change_unit col2 coeff2 unit2 desc2
         (snd (change_unit col1 coeff1 unit1 desc1 self)))
  = snd (change_unit col1 coeff1 unit1 desc1
           (snd (change_unit col2 coeff2 unit2 desc2 self))).
Proof.
  intros Hb Hr1 Hr2 Hne. pose proof (built_Valid self Hb) as Hv.
  destruct (resolved_trace _ _ _ Hv Hr1) as [v1 Hg1].
  destruct (resolved_trace _ _ _ Hv Hr2) as [v2 Hg2].
  rewrite (change_unit_state self col1 c1 coeff1 v1 unit1 desc1 Hv Hr1 Hg1).
  rewrite (change_unit_state self col2 c2 coeff2 v2 unit2 desc2 Hv Hr2 Hg2).
  destruct (rescaled_ready self col1 c1 coeff1 v1 unit1 desc1 Hv Hr1 Hg1)
    as (Hva & Hra & _ & Hoa).
  destruct (rescaled_ready self col2 c2 coeff2 v2 unit2 desc2 Hv Hr2 Hg2)
    as (Hvb & Hrb & _ & Hob).
  rewrite (change_unit_state _ col2 c2 coeff2 v2 unit2 desc2 Hva)
    by first [rewrite Hra; exact Hr2 | rewrite Hoa by congruence; exact Hg2].
  rewrite (change_unit_state _ col1 c1 coeff1 v1 unit1 desc1 Hvb)
    by first [rewrite Hrb; exact Hr1 | rewrite Hob by congruence; exact Hg1].
  unfold rescaled.
  destruct (coeff_error coeff1), (coeff_error coeff2); try reflexivity.
  cbn [_attrs _traces _aliases _ranges _len].
  f_equal.
  - destruct (Py.truthy (_attrs self)) eqn:Ht.
    + destruct (attrs_entry _ _ _ Hv Ht Hg1) as [old1 Ho1].
      destruct (attrs_entry _ _ _ Hv Ht Hg2) as [old2 Ho2].
      apply attrs_after_commute;
        [exact Hne | exact (get_In_keys _ _ _ Ho1)
         | exact (get_In_keys _ _ _ Ho2)].
    + unfold attrs_after. rewrite Ht. cbn [andb]. now rewrite Ht.
  - apply set_set_commute;
      [exact Hne | exact (get_In_keys _ _ _ Hg1) | exact (get_In_keys _ _ _ Hg2)].
Qed.

Lemma change_unit_commute_witness :
  built annotated
  /\ get_trace_col annotated "y0" = Ok "p1"
  /\ get_trace_col annotated "p2" = Ok "p2"
  /\ snd (change_unit "p2" 3%Z None None
            (snd (change_unit "y0" 2%Z (Some "mW") (Some "Optical Power")
                    annotated)))
     = snd (change_unit "y0" 2%Z (Some "mW") (Some "Optical Power")
              (snd (change_unit "p2" 3%Z None None annotated))).
Proof.
  split; [exact annotated_is_built |]. split; [reflexivity |].
  split; [reflexivity |].
  apply (change_unit_commute annotated "y0" "p2" "p1" "p2" 2%Z 3%Z
           (Some "mW") (Some "Optical Power") None None annotated_is_built);
    [reflexivity | reflexivity | discriminate].
Defined.

(** * More on axis labels *)

Lemma set_fresh {V : Type} (d : Py.dict V) (k : string) (x : V) :
  ~ In k (Py.keys d) -> Py.set d k x = (d ++ [(k, x)])%list.
Proof.
  induction d as [| [k' x'] d IH]; simpl; [reflexivity |].
  intros Hno. eqb_cases k' k; [exfalso; apply Hno; now left |].
  rewrite IH; [reflexivity |]. intros Hin. apply Hno. now right.
Qed.

Lemma update_fresh_app {V : Type} (d : Py.dict V) (items : list (string * V)) :
  NoDup (Py.keys d ++ Py.keys items) ->
  Py.update d items = (d ++ items)%list.
Proof.
  unfold Py.update. revert d.
  induction items as [| [k x] items IH]; intros d Hnd; simpl.
  - now rewrite app_nil_r.
  - cbn [Py.keys map fst] in Hnd.
    rewrite set_fresh.
    + rewrite IH.
      * now rewrite <- app_assoc.
      * unfold Py.keys in *. rewrite map_app, <- app_assoc. exact Hnd.
    + intros Hin. apply NoDup_remove_2 in Hnd. apply Hnd.
      apply in_or_app. now left.
Qed.

Lemma combine_seq_snd {A : Type} (l : list A) (s : nat) :
  map snd (combine (seq s (List.length l)) l) = l.
Proof.
  revert s. induction l as [| a l IH]; intros s; simpl; [reflexivity |].
  now rewrite IH.
Qed.

Lemma y_items_targets (l : list string) : map snd (y_items l) = l.
Proof.
  unfold y_items, Py.enumerate. rewrite map_map. cbn [snd].
  apply combine_seq_snd.
Qed.

Section LabelsMore.
Context {num : Type} `{Scalar num}.
Implicit Types (self : Sweep num) (items : Py.dict (list num)).

(** The text [get_axis_labels] makes of an array. *)
Lemma index_pair (v : list num) :
  2 <= List.length v ->
  exists v0 v1, index v 0 = Ok v0 /\ index v 1 = Ok v1.
Proof.
  destruct v as [| a [| b v]]; simpl; try lia. intros _. now exists a, b.
Qed.

(** The keys of the labels: one per trace, in the order of the traces, when
    the names the loop puts them under are distinct. *)
Lemma labels_loop_keys (g : bool) (keys : Py.dict string) items
    (labels : Py.dict string) (names : list string) :
  Forall (fun kv => 2 <= List.length (snd kv)) items ->
  Forall2 (fun kv n => if g then Py.get keys (fst kv) = Some n else n = fst kv)
    items names ->
  NoDup (Py.keys labels ++ names) ->
  exists out,
    labels_loop g keys items labels = Ok out
    /\ Py.keys out = (Py.keys labels ++ names)%list.
Proof.
  intros Hall Hn. revert labels Hall.
  induction Hn as [| [k v] n items names Hkn _ IH]; intros labels Hall Hnd.
  - exists labels. split; [reflexivity | now rewrite app_nil_r].
  - inversion Hall as [| ? ? Hv Hall']; subst. cbn [snd fst] in *.
    destruct (index_pair v Hv) as (v0 & v1 & H0 & H1).
    assert (labels_loop g keys ((k, v) :: items) labels
            = labels_loop g keys items
                (Py.set labels n (show v0 ++ " (" ++ show v1 ++ ")"))) as ->.
    { cbn [labels_loop]. destruct g.
      - rewrite Hkn. cbn [bind Ok]. now rewrite H0, H1.
      - subst n. cbn [bind Ok]. now rewrite H0, H1. }
    assert (~ In n (Py.keys labels)) as Hfresh.
    { apply NoDup_remove_2 in Hnd. intros Hin. apply Hnd.
      apply in_or_app. now left. }
    rewrite (set_fresh _ _ _ Hfresh).
    destruct (IH (labels
                  ++ [(n, (show v0 ++ " (" ++ show v1 ++ ")")%string)])%list
                Hall')
      as [out [Hout Hk]].
    + unfold Py.keys. rewrite map_app, <- app_assoc. exact Hnd.
    + exists out. split; [exact Hout |]. rewrite Hk.
      unfold Py.keys. now rewrite map_app, <- app_assoc.
Qed.

(** The inverted aliases send the first trace name to [x] and the [i]-th of
    the others to [y{i}]: of the two aliases of the second trace, [y0], the
    later one, wins. *)
Lemma inverted_names (k0 k1 : string) (rest : list string) (a : Py.dict string) :
  NoDup (k0 :: k1 :: rest) ->
  a = Py.update [("x", k0); ("y", k1)] (y_items (k1 :: rest)) ->
  Py.get (Py.of_items (map (fun kv => (snd kv, fst kv)) a)) k0 = Some "x"
  /\ forall i k,
       nth_error (k1 :: rest) i = Some k ->
       Py.get (Py.of_items (map (fun kv => (snd kv, fst kv)) a)) k
       = Some ("y" ++ str_nat i).
Proof.
  intros Hnd ->.
  assert (NoDup (Py.keys [("x", k0); ("y", k1)]
                 ++ Py.keys (y_items (k1 :: rest)))) as Hk.
  { cbn [Py.keys map fst app].
    constructor; [| constructor; [| apply y_items_NoDup]].
    - intros [Heq | Hin]; [discriminate |].
      exact (y_items_fresh _ "x" y_name_not_x Hin).
    - exact (y_items_fresh _ "y" y_name_not_y). }
  rewrite (update_fresh_app _ _ Hk). unfold Py.of_items.
  cbn [app map fst snd].
  set (sw := map (fun kv : string * string => (snd kv, fst kv))
               (y_items (k1 :: rest))).
  assert (Py.keys sw = k1 :: rest) as Hsw.
  { unfold sw, Py.keys. rewrite map_map. cbn [fst].
    apply y_items_targets. }
  assert (forall k, Py.get (Py.update [] ((k0, "x") :: (k1, "y") :: sw)) k
                    = match Py.get (List.rev sw) k with
                      | Some n => Some n
                      | None => Py.get [(k1, "y"); (k0, "x")] k
                      end) as Hget.
  { intros k. rewrite get_update. cbn [List.rev].
    rewrite <- app_assoc. cbn [app]. rewrite get_app.
    destruct (Py.get (List.rev sw) k); [reflexivity |].
    destruct (Py.get [(k1, "y"); (k0, "x")] k); reflexivity. }
  inversion Hnd as [| ? ? Hk0 Hnd']; subst.
  split.
  - rewrite Hget.
    replace (Py.get (List.rev sw) k0) with (@None string).
    + cbn [Py.get]. eqb_cases k1 k0; [exfalso; apply Hk0; now left |].
      now rewrite String.eqb_refl.
    + symmetry. apply get_None_not_In. unfold Py.keys. rewrite map_rev.
      intros Hin. apply in_rev in Hin. fold (Py.keys sw) in Hin.
      rewrite Hsw in Hin. contradiction.
  - intros i k Hi. rewrite Hget.
    rewrite (get_NoDup_In (List.rev sw) k ("y" ++ str_nat i)); [reflexivity | |].
    + unfold Py.keys. rewrite map_rev. apply NoDup_rev.
      fold (Py.keys sw). now rewrite Hsw.
    + apply -> in_rev. unfold sw.
      change (k, "y" ++ str_nat i)
        with ((fun kv : string * string => (snd kv, fst kv))
                ("y" ++ str_nat i, k)).
      apply in_map. now apply y_items_In.
Qed.

Lemma names_by_position (inv : Py.dict string) items (s : nat) :
  (forall j kv, nth_error items j = Some kv ->
     Py.get inv (fst kv) = Some ("y" ++ str_nat (s + j))) ->
  Forall2 (fun kv n => Py.get inv (fst kv) = Some n) items
    (map (fun i => "y" ++ str_nat i) (seq s (List.length items))).
Proof.
  revert s. induction items as [| kv items IH]; intros s Hj; simpl.
  - constructor.
  - constructor.
    + specialize (Hj 0 kv eq_refl). now rewrite Nat.add_0_r in Hj.
    + apply IH. intros j kv' Hn. specialize (Hj (S j) kv' Hn).
      now rewrite Nat.add_succ_r in Hj.
Qed.
End LabelsMore.

Lemma Forall2_own_names {V : Type} (items : Py.dict V) :
  Forall2 (fun kv n => n = fst kv) items (Py.keys items).
Proof.
  induction items as [| kv items IH]; simpl; constructor; [reflexivity | exact IH].
Qed.

Lemma y_names_NoDup (n : nat) :
  NoDup ("x" :: map (fun i => "y" ++ str_nat i) (seq 0 n)).
Proof.
  constructor.
  - intros Hin. apply in_map_iff in Hin. destruct Hin as [i [Heq _]].
    exact (y_name_not_x i Heq).
  - apply NoDup_map_NoDup_ForallPairs; [| apply seq_NoDup].
    intros a b _ _. apply y_name_inj.
Qed.

(** X16.  On a sweep a program can hold whose traces have two values or
    more, [get_axis_labels] returns one label per trace, in the order of the
    traces: under the trace names, or with [use_generic_names] under [x],
    [y0], [y1], ... and never under [y]. *)
Theorem get_axis_labels_keys {num : Type} `{Scalar num} (self : Sweep num) :
  built self -> 2 <= len self ->
  (exists labels,
      get_axis_labels self false = Ok labels
      /\ Py.keys labels = Py.keys (_traces self))
  /\ (exists labels,
        get_axis_labels self true = Ok labels
        /\ Py.keys labels
           = "x" :: map (fun i => "y" ++ str_nat i)
                      (seq 0 (List.length (y_cols self)))).
Proof.
  intros Hb Hlen. destruct (built_Valid self Hb) as [H2 Hn Ha Hl _].
  assert (Forall (fun kv : string * list num => 2 <= List.length (snd kv))
            (_traces self)) as Hall.
  { apply Forall_forall. intros kv Hin.
    pose proof (proj1 (Forall_forall _ _) Hl kv Hin) as Hkv.
    unfold has_length in Hkv. unfold len in Hlen. lia. }
  unfold get_axis_labels, y_cols. split.
  - destruct (labels_loop_keys false [] (_traces self) []
                (Py.keys (_traces self)) Hall) as [out [Ho Hk]].
    + apply Forall2_own_names.
    + exact Hn.
    + exists out. split; [exact Ho | exact Hk].
  - destruct (_traces self) as [| [k0 v0] its] eqn:Ht; [simpl in H2; lia |].
    cbn [Py.keys map fst tl] in *. fold (Py.keys its) in *.
    destruct (Py.keys its) as [| k1 rest] eqn:Hits; [discriminate Ha |].
    rewrite make_aliases_eq in Ha.
    assert (_aliases self
            = Py.update [("x", k0); ("y", k1)] (y_items (k1 :: rest))) as Hal
      by (unfold Ok in Ha; congruence).
    destruct (inverted_names k0 k1 rest (_aliases self) Hn Hal) as [Hx Hy].
    assert (List.length (k1 :: rest) = List.length its) as Hlenk
      by (rewrite <- Hits; apply length_map).
    rewrite Hlenk.
    destruct (labels_loop_keys true
                (Py.of_items (map (fun kv => (snd kv, fst kv)) (_aliases self)))
                ((k0, v0) :: its) []
                ("x" :: map (fun i => "y" ++ str_nat i)
                          (seq 0 (List.length its))) Hall) as [out [Ho Hk]].
    + constructor; [exact Hx |].
      apply names_by_position. intros j kv Hj. cbn [Nat.add]. apply Hy.
      rewrite <- Hits. unfold Py.keys. now apply map_nth_error.
    + apply y_names_NoDup.
    + exists out. split; [exact Ho | exact Hk].
Qed.

Lemma get_axis_labels_keys_witness :
  built annotated /\ 2 <= len annotated
  /\ (exists labels,
        get_axis_labels annotated false = Ok labels
        /\ Py.keys labels = Py.keys (_traces annotated))
  /\ (exists labels,
        get_axis_labels annotated true = Ok labels
        /\ Py.keys labels
           = "x" :: map (fun i => "y" ++ str_nat i)
                      (seq 0 (List.length (y_cols annotated)))).
Proof.
  split; [exact annotated_is_built |]. split; [simpl; lia |].
  apply (get_axis_labels_keys annotated annotated_is_built). simpl. lia.
Defined.

(** X17.  On a sweep a program can hold whose traces have one value each,
    [get_axis_labels] raises the [IndexError] of the second element of the
    first trace, with either kind of key. *)
Theorem get_axis_labels_short {num : Type} `{Scalar num}
    (self : Sweep num) (use_generic_names : bool) :
  built self -> len self < 2 ->
  get_axis_labels self use_generic_names
  = Raise (IndexError "index 1 is out of bounds for axis 0 with size 1").
Proof.
  intros Hb Hlen. pose proof (built_len_pos self Hb) as Hpos.
  pose proof (built_Valid self Hb) as Hv.
  pose proof (valid_two _ Hv) as H2. pose proof (valid_lengths _ Hv) as Hl.
  unfold len in Hlen. assert (_len self = 1) as H1 by lia.
  unfold get_axis_labels.
  destruct (_traces self) as [| [k0 v0] its] eqn:Ht; [simpl in H2; lia |].
  pose proof (Forall_inv Hl) as Hv0. unfold has_length in Hv0.
  cbn [snd] in Hv0. rewrite H1 in Hv0.
  destruct v0 as [| a [| b v0]]; try discriminate Hv0.
  cbn [labels_loop].
  assert (index [a] 0 = Ok a) as -> by reflexivity.
  assert (index [a] 1
          = Raise (IndexError "index 1 is out of bounds for axis 0 with size 1"))
    as -> by reflexivity.
  destruct use_generic_names; [| reflexivity].
  destruct (inverted_total self k0 Hv) as [al Hal].
  - rewrite Ht. now left.
  - unfold inverted in Hal. rewrite Hal. reflexivity.
Qed.

Lemma get_axis_labels_short_witness :
  built single /\ len single < 2
  /\ get_axis_labels single true
     = Raise (IndexError "index 1 is out of bounds for axis 0 with size 1").
Proof.
  split; [exact single_is_built |]. split; [simpl; lia |].
  apply (get_axis_labels_short single true single_is_built). simpl. lia.
Defined.
